(** * Group topics: thread data source, topic header, topic form

    A shallow embedding of three pieces of the website's group pages:

    - [useGroupPost]        (hooks: a post thread behind the SWR cache),
    - [GroupTopicHeader]    (the header of a topic page),
    - [TopicForm]           (pages/index/group/components/TopicForm.tsx).

    JavaScript values are a small tagged union, objects are finite maps from
    property names to values, JSX is a tree of elements, and the handlers of
    the form run in a state-and-exception monad that records every call made
    to a collaborator (API client, router, toast, console, mutator). *)

From Stdlib Require Import ZArith String List Bool.
From stdpp Require Import base option list gmap strings pretty.

Set Warnings "-register-all".

Local Open Scope Z_scope.
Local Open Scope string_scope.
Local Open Scope list_scope.

(** ** JavaScript values and objects *)

(** The values the three files handle. Numbers are the integers the API
    hands out (identifiers, timestamps, status codes); nested objects and
    arrays are held by reference. *)
Inductive JsValue : Type :=
  | JsUndefined
  | JsBoolean (b : bool)
  | JsNumber (n : Z)
  | JsString (s : string)
  | JsRef (addr : positive).

Global Instance JsValue_eq_dec : EqDecision JsValue.
Proof. solve_decision. Defined.

(** A plain object: own properties by name. *)
Abbreviation JsObject := (gmap string JsValue).

(** [o.k]: a missing property reads as [undefined]. *)
Definition getProp (o : JsObject) (k : string) : JsValue :=
  default JsUndefined (o !! k).

(** [!!v], the test of [if (v)]. *)
Definition truthy (v : JsValue) : bool :=
  match v with
  | JsUndefined => false
  | JsBoolean b => b
  | JsNumber n => negb (n =? 0)%Z
  | JsString s => negb (String.eqb s "")
  | JsRef _ => true
  end.

(** [`${v}`], the conversion a template literal applies. The numbers met
    here are identifiers, which print as plain decimals. *)
Definition toString (v : JsValue) : string :=
  match v with
  | JsUndefined => "undefined"
  | JsBoolean true => "true"
  | JsBoolean false => "false"
  | JsNumber n => pretty n
  | JsString s => s
  | JsRef _ => "[object Object]"
  end.

(** ** JSX *)

(** [<type {...props}>children</type>]; props that are functions (event
    handlers) are kept out of the tree and modelled as definitions. *)
Inductive Element : Type :=
  | Elem (type : string) (props : list (string * JsValue)) (children : list Element)
  | TextNode (text : JsValue).

Definition elemProps (e : Element) : list (string * JsValue) :=
  match e with
  | Elem _ ps _ => ps
  | TextNode _ => []
  end.

(** The value of prop [k] of an element ([undefined] when not passed). *)
Fixpoint lookupProp (k : string) (ps : list (string * JsValue)) : JsValue :=
  match ps with
  | [] => JsUndefined
  | (k', v) :: ps' => if String.eqb k k' then v else lookupProp k ps'
  end.

(** All elements of a given type in a tree, in document order. *)
Fixpoint elementsOfType (ty : string) (e : Element) : list Element :=
  match e with
  | Elem ty' ps cs =>
      (if String.eqb ty ty' then [e] else [])
        ++ flat_map (elementsOfType ty) cs
  | TextNode _ => []
  end.

(** ** Completions, events and the handler monad *)

(** How a call or an awaited promise ends: normally with a value, or by
    throwing (a rejected promise throws at its [await]). *)
Inductive Completion (A : Type) : Type :=
  | Normal (a : A)
  | Throw (err : string).
Arguments Normal {A} a.
Arguments Throw {A} err.

(** What a write operation of the API client answers. *)
Record Response : Type := { status : Z; data : JsObject }.

(** The topic as the API returns it ([TopicDetail]); its declaration lives
    in the client package, so it is kept as an object with all its fields. *)
Abbreviation TopicDetail := (gmap string JsValue).

(** The form's values as [handleSubmit] hands them over ([FormData]):
    [title], [text] and ['cf-turnstile-response']. *)
Abbreviation FormData := (gmap string JsValue).

(** Calls that leave the component. *)
Inductive Event : Type :=
  | TurnstileExecute
  | CreateNewGroupTopic (groupName : JsValue) (body : JsObject)
  | EditGroupTopic (id : JsValue) (body : JsObject)
  | Navigate (to : string)
  | ConsoleError (response : Response)
  | Toast (message : JsValue)
  | Mutate (data : TopicDetail).

(** State owned by one mounted form: the [sending] flag of [useState], and
    the store of [useForm] (current values, and the registered fields with
    their [required] message, in order of registration). *)
Record FormState : Type := {
  sending : bool;
  formValues : JsObject;
  fields : list (string * string)
}.

(** A computation: from a state to a completion, the state it leaves and
    the events it emitted, oldest first. *)
Definition M (A : Type) : Type :=
  FormState -> Completion A * FormState * list Event.

Definition ret {A} (a : A) : M A := fun s => (Normal a, s, []).

Definition bind {A B} (m : M A) (f : A -> M B) : M B :=
  fun s =>
    match m s with
    | (Normal a, s1, l1) =>
        match f a s1 with
        | (c, s2, l2) => (c, s2, l1 ++ l2)
        end
    | (Throw e, s1, l1) => (Throw e, s1, l1)
    end.

Notation "x <-- m ;; k" := (bind m (fun x => k))
  (at level 100, m at next level, right associativity).
Notation "m ;;; k" := (bind m (fun _ => k))
  (at level 100, right associativity).

Definition throw {A} (err : string) : M A := fun s => (Throw err, s, []).

Definition emit (e : Event) : M unit := fun s => (Normal tt, s, [e]).

(** [await p]: the value of a fulfilled promise, a throw for a rejected one. *)
Definition await {A} (p : Completion A) : M A :=
  fun s => (p, s, []).

Definition finalState {A} (r : Completion A * FormState * list Event) : FormState :=
  snd (fst r).

Definition completion {A} (r : Completion A * FormState * list Event) : Completion A :=
  fst (fst r).

Definition events {A} (r : Completion A * FormState * list Event) : list Event :=
  snd r.

(** ** The topic form (TopicForm.tsx) *)

(** [TopicFormProps]: all three props are optional. The [topic] prop is a
    pair of the topic's data and a mutator; the data is kept here and a call
    of the mutator is the [Mutate] event. *)
Record TopicFormProps : Type := {
  quickPost : option bool;
  groupName : option string;
  topic : option TopicDetail
}.

(** The two write operations of [ozaClient] the form uses; each answers with
    a response or rejects. *)
Record OzaClient : Type := {
  createNewGroupTopic : JsValue -> JsObject -> Completion Response;
  editGroupTopic : JsValue -> JsObject -> Completion Response
}.

(** An optional string prop as a value. *)
Definition optString (o : option string) : JsValue :=
  match o with
  | Some s => JsString s
  | None => JsUndefined
  end.

(** [{ title, text, 'cf-turnstile-response': token }] *)
Definition topicBody (title text token : JsValue) : JsObject :=
  <["cf-turnstile-response" := token]> (<["text" := text]> (<["title" := title]> ∅)).

(** [setSending] of [useState]. *)
Definition setSending (b : bool) : M unit :=
  fun s => (Normal tt,
            {| sending := b; formValues := formValues s; fields := fields s |},
            []).

(** [setValue] of [useForm]: writes one value of the form's store. *)
Definition setValue (name : string) (v : JsValue) : M unit :=
  fun s => (Normal tt,
            {| sending := sending s;
               formValues := <[name := v]> (formValues s);
               fields := fields s |},
            []).

Definition navigate (to : string) : M unit := emit (Navigate to).
Definition toast (message : JsValue) : M unit := emit (Toast message).
Definition console_error (r : Response) : M unit := emit (ConsoleError r).

(** A field joins the store at its first registration and keeps its place
    afterwards; a later registration only refreshes its rule. *)
Fixpoint addField (name required : string) (fs : list (string * string))
  : list (string * string) :=
  match fs with
  | [] => [(name, required)]
  | (n, r) :: fs' =>
      if String.eqb n name then (n, required) :: fs'
      else (n, r) :: addField name required fs'
  end.

(** [register(name, { required })]: the field is recorded with its rule and
    the props to spread on the input come back. *)
Definition register (name required : string) : M (list (string * JsValue)) :=
  fun s => (Normal [("name", JsString name)],
            {| sending := sending s;
               formValues := formValues s;
               fields := addField name required (fields s) |},
            []).

(** [<Controller name rules render>]: registers the field and passes its
    [field] props (name and current value) to [render]. *)
Definition controller (name required : string)
    (render : list (string * JsValue) -> M Element) : M Element :=
  fun s =>
    let s' := {| sending := sending s;
                 formValues := formValues s;
                 fields := addField name required (fields s) |} in
    render [("name", JsString name); ("value", getProp (formValues s) name)] s'.

Definition getSending : M bool := fun s => (Normal (sending s), s, []).

(** *** Validation and submission plumbing of the form library *)

(** Modelled from the spec: the [required] rule of the form library, which
    is not among the sources. A required field fails when it has no value or
    the empty string (spec 3: title and body are non-empty strings). *)
Definition isMissing (v : JsValue) : bool :=
  match v with
  | JsUndefined => true
  | JsString s => String.eqb s ""
  | _ => false
  end.

(** The errors object: one entry (field name, message) per failing field. *)
Definition FieldErrors : Type := list (string * string).

(** Modelled from the spec: the validation pass of the form library: the
    registered fields are checked in the order of their registration, and
    each failing one adds its message to the errors. *)
Fixpoint validate (fs : list (string * string)) (values : JsObject) : FieldErrors :=
  match fs with
  | [] => []
  | (name, required) :: fs' =>
      if isMissing (getProp values name)
      then (name, required) :: validate fs' values
      else validate fs' values
  end.

(** Modelled from the spec: [handleSubmit(onValid, onInvalid)()] of the form
    library, which is not among the sources (spec 4.3, step 1). The
    registered rules are checked against the current values; with no error
    [onValid] gets a copy of the values, otherwise [onInvalid] gets the
    errors and [onValid] is not called. The copy is a value of its own: a
    later [setValue] changes the store, not the object already handed over. *)
Definition handleSubmit (onValid : FormData -> M unit)
    (onInvalid : FieldErrors -> M unit) : M unit :=
  fun s =>
    match validate (fields s) (formValues s) with
    | [] => onValid (formValues s) s
    | errors => onInvalid errors s
    end.

Section TopicForm.

(** The collaborators of one form: the API client, what the verification
    challenge settles to when executed, and the class names of the style
    sheet. *)
Variable ozaClient : OzaClient.
Variable execute : Completion JsValue.
Variable styles : string -> string.

Variable props : TopicFormProps.

(** State at mount: [useState(false)], and [useForm] with the default
    values [title: topic?.data.title, text: topic?.data.text]. *)
Definition mountState : FormState :=
  {| sending := false;
     formValues :=
       <["text" := match topic props with
                   | Some t => getProp t "text"
                   | None => JsUndefined
                   end]>
       (<["title" := match topic props with
                     | Some t => getProp t "title"
                     | None => JsUndefined
                     end]> ∅);
     fields := [] |}.

Definition postNewTopic (formData : FormData) (groupName : JsValue) : M unit :=
  let title := getProp formData "title" in
  let text := getProp formData "text" in
  let token := getProp formData "cf-turnstile-response" in
  response <-- (emit (CreateNewGroupTopic groupName (topicBody title text token)) ;;;
                await (createNewGroupTopic ozaClient groupName (topicBody title text token))) ;;
  if (status response =? 200)%Z then
    navigate ("/group/topic/" +:+ toString (getProp (data response) "id"))
  else
    console_error response ;;;
    toast (getProp (data response) "message").

Definition editTopic (formData : FormData) (id : JsValue) : M unit :=
  let title := getProp formData "title" in
  let text := getProp formData "text" in
  let token := getProp formData "cf-turnstile-response" in
  response <-- (emit (EditGroupTopic id (topicBody title text token)) ;;;
                await (editGroupTopic ozaClient id (topicBody title text token))) ;;
  if (status response =? 200)%Z then
    match topic props with
    | Some t => emit (Mutate (<["text" := text]> (<["title" := title]> t)))
    | None => ret tt
    end ;;;
    navigate ("/group/topic/" +:+ toString id)
  else
    console_error response ;;;
    toast (getProp (data response) "message").

Definition onSubmit (formData : FormData) : M unit :=
  setSending true ;;;
  token <-- (emit TurnstileExecute ;;; await execute) ;;
  (if truthy token then
     setValue "cf-turnstile-response" token ;;;
     if truthy (optString (groupName props)) then
       postNewTopic formData (optString (groupName props))
     else
       match topic props with
       | Some t => editTopic formData (getProp t "id")
       | None => ret tt
       end
   else ret tt) ;;;
  setSending false.

(** [Object.values(errors).map((field) => field.message)[0]] *)
Definition firstMessage (errors : FieldErrors) : JsValue :=
  match map snd errors with
  | m :: _ => JsString m
  | [] => JsUndefined
  end.

Definition showErrors (errors : FieldErrors) : M unit :=
  toast (firstMessage errors).

(** [onConfirm] of the editor: [handleSubmit(onSubmit, showErrors)()]. *)
Definition onConfirm : M unit := handleSubmit onSubmit showErrors.

Definition FormInput (quickPost : bool) : M Element :=
  registered <-- register "title" "请填写标题" ;;
  ret (Elem "Input"
         ([("rounded", JsBoolean true);
           ("placeholder",
            JsString (if quickPost then "给新帖取一个标题" else "取个标题…"))]
            ++ registered)
         []).

Definition FormEditor (quickPost : bool) : M Element :=
  controller "text" "请填写正文内容" (fun field =>
    sending <-- getSending ;;
    ret (Elem "EditorForm"
           ([("placeholder",
              JsString (if quickPost then "想聊点什么的呢…" else "话题正文…"));
             ("hideCancel", JsBoolean true);
             ("confirmText",
              if sending then JsString "..."
              else if quickPost then JsString "快速发帖" else JsUndefined);
             ("rows", if negb quickPost then JsNumber 15 else JsUndefined)]
              ++ field)
           [])).

(** The component. The check of the props is its first statement; the
    hooks and the inputs come after it. *)
Definition TopicForm : M Element :=
  if (truthy (optString (groupName props)) && bool_decide (is_Some (topic props)))
     || (negb (truthy (optString (groupName props)))
         && negb (bool_decide (is_Some (topic props))))
  then throw "Invalid usage: should specify either groupName or topic"
  else if default false (quickPost props) then
    input <-- FormInput true ;;
    editor <-- FormEditor true ;;
    ret (Elem "Form"
           [("compact", JsBoolean true);
            ("className", JsString (styles "quickPostForm"))]
           [input; editor])
  else
    input <-- FormInput false ;;
    editor <-- FormEditor false ;;
    ret (Elem "Fragment" []
           [Elem "div" [("className", JsString (styles "titleInput"))] [input];
            Elem "div" [("className", JsString (styles "contentEditor"))] [editor]]).

End TopicForm.

(** ** The thread data source (useGroupPost) *)

(** The cache key of a thread: [`/group/post/${id}`]. *)
Definition groupPostKey (id : Z) : string :=
  "/group/post/" +:+ toString (JsNumber id).

(** Network calls issued by the data source. *)
Inductive Fetch : Type :=
  | GetGroupPost (id : Z).

Section ThreadDataSource.

(** [ozaClient.Reply], the payload of the remote read, is opaque here. *)
Variable Reply : Type.

(** [ok(ozaClient.getGroupPost(id))]: the payload, or a throw when the
    read fails. *)
Variable getGroupPost : Z -> Completion Reply.

(** A read or a mutation: from a cache to a result, the cache it leaves
    and the network calls it issued. *)
Definition Swr (A : Type) : Type :=
  gmap string Reply -> A * gmap string Reply * list Fetch.

(** Modelled from the spec: [useSWR(key, fetcher, { suspense: true })] of
    the cache library, which is not among the sources (spec 4.1). A key
    that has an entry is served from the cache; otherwise rendering waits
    for the fetcher, whose value becomes the entry of that key (a failed
    fetch is thrown to the consumer and leaves the cache as it was). *)
Definition useSWR (key : string) (fetcher : Fetch * Completion Reply)
  : Swr (Completion Reply) :=
  fun cache =>
    match cache !! key with
    | Some v => (Normal v, cache, [])
    | None =>
        match snd fetcher with
        | Normal v => (Normal v, <[key := v]> cache, [fst fetcher])
        | Throw e => (Throw e, cache, [fst fetcher])
        end
    end.

(** Modelled from the spec: the mutator [useSWR] returns, bound to the
    key (spec 4.1 and 8.2): called with a value, it puts that value in the
    entry of its key, with no network round trip. *)
Definition boundMutate (key : string) (v : Reply) : Swr unit :=
  fun cache => (tt, <[key := v]> cache, []).

(** [UseGroupPostRet] *)
Record UseGroupPostRet : Type := {
  post_data : Reply;
  mutate : Reply -> Swr unit
}.

Definition useGroupPost (id : Z) : Swr (Completion UseGroupPostRet) :=
  fun cache =>
    match useSWR (groupPostKey id) (GetGroupPost id, getGroupPost id) cache with
    | (Normal v, cache', fetches) =>
        (Normal {| post_data := v; mutate := boundMutate (groupPostKey id) |},
         cache', fetches)
    | (Throw e, cache', fetches) => (Throw e, cache', fetches)
    end.

End ThreadDataSource.

Arguments post_data {Reply} _.
Arguments mutate {Reply} _ _ _.

(** ** The topic header (GroupTopicHeader) *)

(** The fields of [SlimUser] and [SlimGroup] the header reads; the two
    declarations live in the client package. *)
Module Avatar.
Record t : Type := { large : string }.
End Avatar.

Module SlimUser.
Record t : Type := { avatar : Avatar.t; username : string; nickname : string }.
End SlimUser.

Module SlimGroup.
Record t : Type := { name : string; title : string }.
End SlimGroup.

(** [interface Header] *)
Module Header.
Record t : Type := {
  title : string;
  createdAt : Z;
  creator : SlimUser.t;
  parent : SlimGroup.t;
  id : Z
}.
End Header.

Global Instance Avatar_eq_dec : EqDecision Avatar.t.
Proof. solve_decision. Defined.
Global Instance SlimUser_eq_dec : EqDecision SlimUser.t.
Proof. solve_decision. Defined.
Global Instance SlimGroup_eq_dec : EqDecision SlimGroup.t.
Proof. solve_decision. Defined.
Global Instance Header_eq_dec : EqDecision Header.t.
Proof. solve_decision. Defined.

Section GroupTopicHeader.

(** [getUserProfileLink] of the utils package, and the class names of the
    style sheet. *)
Variable getUserProfileLink : string -> string.
Variable styles : string -> string.

Definition GroupTopicHeader (h : Header.t) : Element :=
  let creator := Header.creator h in
  let parent := Header.parent h in
  Elem "div" [("className", JsString (styles "groupTopicHeader"))]
    [Elem "Avatar"
       [("src", JsString (Avatar.large (SlimUser.avatar creator)));
        ("size", JsString "medium")] [];
     Elem "div" [("className", JsString (styles "headerMain"))]
       [Elem "span" [("className", JsString (styles "navBar"))]
          [Elem "div" []
             [Elem "Link"
                [("to", JsString (getUserProfileLink (SlimUser.username creator)));
                 ("isExternal", JsBoolean true)]
                [TextNode (JsString (SlimUser.nickname creator))];
              Elem "span" [] [TextNode (JsString "发表于")];
              Elem "Link"
                [("to", JsString ("/group/" +:+ SlimGroup.name parent))]
                [TextNode (JsString (SlimGroup.title parent))];
              Elem "span" [] [TextNode (JsString "»")];
              Elem "Link"
                [("to", JsString ("/group/" +:+ SlimGroup.name parent +:+ "/forum"))]
                [TextNode (JsString "组内讨论")]];
           Elem "CommentInfo"
             [("createdAt", JsNumber (Header.createdAt h));
              ("floor", JsString "1");
              ("id", JsNumber (Header.id h))] []];
        Elem "h1" [("className", JsString (styles "title"))]
          [TextNode (JsString (Header.title h))]]].

(** The [to] prop of every link of a tree, in document order. *)
Definition linkTargets (e : Element) : list JsValue :=
  map (fun l => lookupProp "to" (elemProps l)) (elementsOfType "Link" e).

End GroupTopicHeader.

(** *** The component as the view library runs it *)

(** A render of a function component: from the hook cells of its instance
    (what [useState] and the like keep between two renders) to the tree it
    returns, the cells it leaves, and the calls it made to collaborators
    while rendering. *)
Definition Render (A : Type) : Type :=
  list JsValue -> A * list JsValue * list Event.

(** A body that only returns. *)
Definition renderReturn {A : Type} (a : A) : Render A :=
  fun hooks => (a, hooks, []).

(** [const GroupTopicHeader: FC<Header> = (props) => { return (...) }]: the
    body of the component is the single [return] of its tree; it uses no
    hook and calls no collaborator. *)
Definition GroupTopicHeaderFC (getUserProfileLink styles : string -> string)
    (h : Header.t) : Render Element :=
  renderReturn (GroupTopicHeader getUserProfileLink styles h).

(** *** [memo] *)

Section Memo.

Context {P : Type}.

(** The comparison of the previous props with the next ones. *)
Variable areEqual : P -> P -> bool.
Variable component : P -> Render Element.

(** A mounted, memoized component: the props and the output of its last
    render, the hook cells of the wrapped component, and (for counting) how
    often the wrapped component ran. *)
Record MemoState : Type := {
  lastRender : option (P * Element);
  calls : nat;
  hooks : list JsValue
}.

Definition memoInit : MemoState :=
  {| lastRender := None; calls := 0; hooks := [] |}.

(** The wrapped component runs on its hook cells; its output is kept. *)
Definition runComponent (p : P) (m : MemoState)
  : Element * MemoState * list Event :=
  match component p (hooks m) with
  | (e, hooks', called) =>
      (e,
       {| lastRender := Some (p, e); calls := S (calls m); hooks := hooks' |},
       called)
  end.

(** Modelled from the spec: [memo(component)] of the view library, which
    is not among the sources (spec 4.2): when the props compare equal to
    those of the last render, the last output is reused and the component
    does not run; otherwise the component runs and its output is kept. *)
Definition memo (p : P) (m : MemoState) : Element * MemoState * list Event :=
  match lastRender m with
  | Some (p0, e0) => if areEqual p0 p then (e0, m, []) else runComponent p m
  | None => runComponent p m
  end.

End Memo.

(** A sequence of renders of a mounted component, one per element of [ps]:
    the trees in order, the state left, and all the calls made. *)
Fixpoint renderAll {P : Type}
    (f : P -> @MemoState P -> Element * @MemoState P * list Event)
    (ps : list P) (m : @MemoState P)
  : list Element * @MemoState P * list Event :=
  match ps with
  | [] => ([], m, [])
  | p :: ps' =>
      let '(e, m1, l1) := f p m in
      let '(es, m2, l2) := renderAll f ps' m1 in
      (e :: es, m2, l1 ++ l2)
  end.

(** [export default memo(GroupTopicHeader)]. The comparison is the view
    library's shallow comparison of the props; it is kept as a parameter. *)
Definition MemoGroupTopicHeader (getUserProfileLink styles : string -> string)
    (areEqual : Header.t -> Header.t -> bool)
  : Header.t -> @MemoState Header.t
    -> Element * @MemoState Header.t * list Event :=
  memo areEqual (GroupTopicHeaderFC getUserProfileLink styles).

(** ** Vocabulary for the statements *)

(** What [postNewTopic] does with a response. *)
Definition afterCreate (r : Response) : list Event :=
  if (status r =? 200)%Z
  then [Navigate ("/group/topic/" +:+ toString (getProp (data r) "id"))]
  else [ConsoleError r; Toast (getProp (data r) "message")].

(** What [editTopic] does with a response, for the topic [t] of the props
    and the submitted [title] and [text]. *)
Definition afterEdit (t : TopicDetail) (id title text : JsValue) (r : Response)
  : list Event :=
  if (status r =? 200)%Z
  then [Mutate (<["text" := text]> (<["title" := title]> t));
        Navigate ("/group/topic/" +:+ toString id)]
  else [ConsoleError r; Toast (getProp (data r) "message")].

(** The body both write operations receive: title, text and token are all
    read from the values handed to the handler. *)
Definition bodyOf (formData : FormData) : JsObject :=
  topicBody (getProp formData "title") (getProp formData "text")
            (getProp formData "cf-turnstile-response").

(** *** Sample collaborators and inputs *)

(** A client whose two write operations answer [r] whatever they are sent,
    and one whose requests fail at the network. *)
Definition answering (r : Response) : OzaClient :=
  {| createNewGroupTopic := fun _ _ => Normal r;
     editGroupTopic := fun _ _ => Normal r |}.

Definition rejecting (err : string) : OzaClient :=
  {| createNewGroupTopic := fun _ _ => Throw err;
     editGroupTopic := fun _ _ => Throw err |}.

Definition created42 : Response :=
  {| status := 200; data := {[ "id" := JsNumber 42 ]} |}.

Definition edited : Response :=
  {| status := 200; data := ∅ |}.

Definition titleTooLong : Response :=
  {| status := 400; data := {[ "message" := JsString "标题过长" ]} |}.

(** The store of a rendered form whose two inputs hold [title] and [text]
    and in which no token was stored yet. *)
Definition filled (title text : JsValue) : FormState :=
  {| sending := false;
     formValues := <["text" := text]> (<["title" := title]> ∅);
     fields := [("title", "请填写标题"); ("text", "请填写正文内容")] |}.

Definition topic7 : TopicDetail :=
  <["state" := JsNumber 0]>
    (<["text" := JsString "old body"]>
       (<["title" := JsString "old"]> (<["id" := JsNumber 7]> ∅))).

Definition createProps : TopicFormProps :=
  {| quickPost := None; groupName := Some "life"; topic := None |}.

Definition editProps : TopicFormProps :=
  {| quickPost := None; groupName := None; topic := Some topic7 |}.

(** What a memoized component remembers is an output of the component. *)
Definition memoOk {P : Type} (view : P -> Element) (m : MemoState) : Prop :=
  match lastRender m with
  | Some (p0, e0) => e0 = view p0
  | None => True
  end.

(** A sample [getUserProfileLink], for running the header. *)
Definition sampleProfileLink (username : string) : string :=
  "/user/" +:+ username.

Definition sampleHeader : Header.t :=
  {| Header.title := "hello";
     Header.createdAt := 1700000000;
     Header.creator :=
       {| SlimUser.avatar := {| Avatar.large := "/pic/l/1.jpg" |};
          SlimUser.username := "alice";
          SlimUser.nickname := "Alice" |};
     Header.parent := {| SlimGroup.name := "life"; SlimGroup.title := "Life" |};
     Header.id := 42 |}.

(** *** Reading a run of the handler *)

Definition isChallenge (e : Event) : bool :=
  match e with TurnstileExecute => true | _ => false end.

Definition isWrite (e : Event) : bool :=
  match e with
  | CreateNewGroupTopic _ _ | EditGroupTopic _ _ => true
  | _ => false
  end.

(** What reaches the user or the cached topic: a navigation, a toast, a
    line on the console, a call of the mutator. *)
Definition isFeedback (e : Event) : bool :=
  match e with
  | Navigate _ | Toast _ | ConsoleError _ | Mutate _ => true
  | _ => false
  end.

(** The write call a submission makes for given props and handed-over
    values: the create operation under a truthy [groupName], the edit
    operation on the topic's [id] otherwise. *)
Definition writeCall (props : TopicFormProps) (formData : FormData) : Event :=
  if truthy (optString (groupName props))
  then CreateNewGroupTopic (optString (groupName props)) (bodyOf formData)
  else EditGroupTopic
         (getProp (default (∅ : TopicDetail) (topic props)) "id")
         (bodyOf formData).

(** The value of prop [k] of every [EditorForm] of a tree. *)
Definition editorProp (k : string) (e : Element) : list JsValue :=
  map (fun el => lookupProp k (elemProps el)) (elementsOfType "EditorForm" e).

Definition isNavigate (e : Event) : bool :=
  match e with Navigate _ => true | _ => false end.

(** The body a write call was sent. *)
Definition writeBody (e : Event) : option JsObject :=
  match e with
  | CreateNewGroupTopic _ body | EditGroupTopic _ body => Some body
  | _ => None
  end.

(** The page a submission navigates to for the topic [id]. *)
Definition topicPage (id : JsValue) : string :=
  "/group/topic/" +:+ toString id.

(** * Properties *)

(** ** Running the handlers *)

Lemma bind_normal {A B} (m : M A) (f : A -> M B) s a s1 l1 :
  m s = (Normal a, s1, l1) ->
  bind m f s = (completion (f a s1), finalState (f a s1), l1 ++ events (f a s1)).
Proof.
  intros Hm. unfold bind. rewrite Hm.
  destruct (f a s1) as [[c s2] l2]. reflexivity.
Qed.

Lemma bind_throw {A B} (m : M A) (f : A -> M B) s e s1 l1 :
  m s = (Throw e, s1, l1) ->
  bind m f s = (Throw e, s1, l1).
Proof. intros Hm. unfold bind. rewrite Hm. reflexivity. Qed.

Section TopicFormFacts.

Variable ozaClient : OzaClient.
Variable props : TopicFormProps.

Lemma postNewTopic_normal formData g s r :
  createNewGroupTopic ozaClient g (bodyOf formData) = Normal r ->
  postNewTopic ozaClient formData g s
  = (Normal tt, s, CreateNewGroupTopic g (bodyOf formData) :: afterCreate r).
Proof.
  intros Hr. unfold postNewTopic, afterCreate, bodyOf in *.
  unfold bind, emit, await, navigate, console_error, toast, emit.
  rewrite Hr. destruct (status r =? 200)%Z; reflexivity.
Qed.

Lemma postNewTopic_throw formData g s e :
  createNewGroupTopic ozaClient g (bodyOf formData) = Throw e ->
  postNewTopic ozaClient formData g s
  = (Throw e, s, [CreateNewGroupTopic g (bodyOf formData)]).
Proof.
  intros Hr. unfold postNewTopic, bodyOf in *.
  unfold bind, emit, await. rewrite Hr. reflexivity.
Qed.

Lemma editTopic_normal formData t s r :
  topic props = Some t ->
  editGroupTopic ozaClient (getProp t "id") (bodyOf formData) = Normal r ->
  editTopic ozaClient props formData (getProp t "id") s
  = (Normal tt, s,
     EditGroupTopic (getProp t "id") (bodyOf formData)
       :: afterEdit t (getProp t "id") (getProp formData "title")
                    (getProp formData "text") r).
Proof.
  intros Ht Hr. unfold editTopic, afterEdit, bodyOf in *.
  unfold bind, emit, await, navigate, console_error, toast, emit, ret.
  rewrite Hr, Ht. destruct (status r =? 200)%Z; reflexivity.
Qed.

Lemma editTopic_throw formData id s e :
  editGroupTopic ozaClient id (bodyOf formData) = Throw e ->
  editTopic ozaClient props formData id s
  = (Throw e, s, [EditGroupTopic id (bodyOf formData)]).
Proof.
  intros Hr. unfold editTopic, bodyOf in *.
  unfold bind, emit, await. rewrite Hr. reflexivity.
Qed.

End TopicFormFacts.

Section SubmitFacts.

Variable ozaClient : OzaClient.
Variable props : TopicFormProps.

(** The state a submission leaves when it ran to its last statement. *)
Lemma onSubmit_no_token token formData s :
  truthy token = false ->
  onSubmit ozaClient (Normal token) props formData s
  = (Normal tt,
     {| sending := false; formValues := formValues s; fields := fields s |},
     [TurnstileExecute]).
Proof.
  intros Hf. unfold onSubmit, bind, setSending, emit, await, ret.
  cbv beta iota. rewrite Hf. reflexivity.
Qed.

Lemma onSubmit_execute_throw e formData s :
  onSubmit ozaClient (Throw e) props formData s
  = (Throw e,
     {| sending := true; formValues := formValues s; fields := fields s |},
     [TurnstileExecute]).
Proof. reflexivity. Qed.

(** With a token, the handler stores it, runs the branch of its mode and
    clears the flag only if that branch completes normally. *)
Lemma onSubmit_token token formData s :
  truthy token = true ->
  let s1 := {| sending := true;
               formValues := <["cf-turnstile-response" := token]> (formValues s);
               fields := fields s |} in
  let branch :=
    (if truthy (optString (groupName props))
     then postNewTopic ozaClient formData (optString (groupName props))
     else match topic props with
          | Some t => editTopic ozaClient props formData (getProp t "id")
          | None => ret tt
          end) s1 in
  onSubmit ozaClient (Normal token) props formData s
  = match completion branch with
    | Normal _ =>
        (Normal tt,
         {| sending := false;
            formValues := formValues (finalState branch);
            fields := fields (finalState branch) |},
         TurnstileExecute :: events branch)
    | Throw e => (Throw e, finalState branch, TurnstileExecute :: events branch)
    end.
Proof.
  intros Ht s1 branch. subst s1 branch.
  unfold onSubmit, bind, setSending, setValue, emit, await.
  cbv beta iota. rewrite Ht. cbv beta iota.
  cbn [sending formValues fields].
  match goal with |- context [ (if ?c then ?a else ?b) ?st ] =>
    destruct ((if c then a else b) st) as [[[u|e] s2] l2] end;
    cbn [completion finalState events fst snd app].
  - rewrite app_nil_r. reflexivity.
  - reflexivity.
Qed.

End SubmitFacts.

Lemma getProp_topicBody_token title text token :
  getProp (topicBody title text token) "cf-turnstile-response" = token.
Proof. unfold getProp, topicBody. rewrite lookup_insert_eq. reflexivity. Qed.

(** ** Submission with a token *)

(** C1, evaluated on the code: at a first submission in create mode (title
    "hello", body "world", no token stored yet, the challenge resolving to
    "tok"), the handler stores "tok" in the form's store, but the
    ['cf-turnstile-response'] it sends to [createNewGroupTopic] is the one of
    the values it was handed, which is [undefined]; in edit mode
    [editGroupTopic] is sent [undefined] likewise. *)
Theorem write_receives_handed_over_token :
  let creating :=
    onSubmit (answering created42) (Normal (JsString "tok")) createProps
      (formValues (filled (JsString "hello") (JsString "world")))
      (filled (JsString "hello") (JsString "world")) in
  let editing :=
    onSubmit (answering edited) (Normal (JsString "tok")) editProps
      (formValues (filled (JsString "new") (JsString "new body")))
      (filled (JsString "new") (JsString "new body")) in
  events creating
  = [TurnstileExecute;
     CreateNewGroupTopic (JsString "life")
       (topicBody (JsString "hello") (JsString "world") JsUndefined);
     Navigate "/group/topic/42"]
  /\ getProp (formValues (finalState creating)) "cf-turnstile-response"
     = JsString "tok"
  /\ events editing
     = [TurnstileExecute;
        EditGroupTopic (JsNumber 7)
          (topicBody (JsString "new") (JsString "new body") JsUndefined);
        Mutate (<["text" := JsString "new body"]> (<["title" := JsString "new"]> topic7));
        Navigate "/group/topic/7"]
  /\ getProp (formValues (finalState editing)) "cf-turnstile-response"
     = JsString "tok".
Proof. vm_compute. repeat split; reflexivity. Qed.

(** The same first submission, started from the editor's confirm action:
    the values pass validation and the handler gets a copy of them. *)
Example create_success_scenario :
  onConfirm (answering created42) (Normal (JsString "tok")) createProps
    (filled (JsString "hello") (JsString "world"))
  = onSubmit (answering created42) (Normal (JsString "tok")) createProps
      (formValues (filled (JsString "hello") (JsString "world")))
      (filled (JsString "hello") (JsString "world")).
Proof. reflexivity. Qed.

(** C2: in create mode, once the challenge gave a token, the handler calls
    [createNewGroupTopic] and then, for a response of status 200, navigates
    to [/group/topic/{response.data.id}] and shows no toast; for any other
    status it logs the response and shows exactly [response.data.message]
    in a toast, and does not navigate. *)
Theorem create_response_handling
    (ozaClient : OzaClient) (props : TopicFormProps) (formData : FormData)
    (s : FormState) (token : JsValue) (r : Response) :
  truthy token = true ->
  truthy (optString (groupName props)) = true ->
  createNewGroupTopic ozaClient (optString (groupName props)) (bodyOf formData)
    = Normal r ->
  events (onSubmit ozaClient (Normal token) props formData s)
  = TurnstileExecute
      :: CreateNewGroupTopic (optString (groupName props)) (bodyOf formData)
      :: (if (status r =? 200)%Z
          then [Navigate ("/group/topic/" +:+ toString (getProp (data r) "id"))]
          else [ConsoleError r; Toast (getProp (data r) "message")]).
Proof.
  intros Htok Hg Hr.
  rewrite onSubmit_token by exact Htok. cbv zeta.
  rewrite Hg. rewrite (postNewTopic_normal _ _ _ _ r) by exact Hr.
  reflexivity.
Qed.

Lemma create_response_handling_witness :
  events (onSubmit (answering created42) (Normal (JsString "tok")) createProps
            (formValues (filled (JsString "hello") (JsString "world")))
            (filled (JsString "hello") (JsString "world")))
  = [TurnstileExecute;
     CreateNewGroupTopic (JsString "life")
       (bodyOf (formValues (filled (JsString "hello") (JsString "world"))));
     Navigate "/group/topic/42"].
Proof.
  apply (create_response_handling (answering created42) createProps
           (formValues (filled (JsString "hello") (JsString "world")))
           (filled (JsString "hello") (JsString "world"))
           (JsString "tok") created42); reflexivity.
Defined.

(** The server-rejection scenario of the spec: status 400 with the message
    "标题过长" gives that toast and no navigation. *)
Example create_rejected_scenario :
  events (onConfirm (answering titleTooLong) (Normal (JsString "tok")) createProps
            (filled (JsString "hello") (JsString "world")))
  = [TurnstileExecute;
     CreateNewGroupTopic (JsString "life")
       (topicBody (JsString "hello") (JsString "world") JsUndefined);
     ConsoleError titleTooLong;
     Toast (JsString "标题过长")].
Proof. vm_compute. reflexivity. Qed.

(** C3: in edit mode, once the challenge gave a token, the handler calls
    [editGroupTopic] and then, for a response of status 200, calls the
    mutator exactly once, with the topic's data in which [title] and [text]
    hold the submitted values and every other field is as before (so the
    token does not enter it), and then navigates to [/group/topic/{id}];
    for any other status there is neither a mutator call nor a navigation. *)
Theorem edit_response_handling
    (ozaClient : OzaClient) (props : TopicFormProps) (formData : FormData)
    (s : FormState) (token : JsValue) (t : TopicDetail) (r : Response) :
  truthy token = true ->
  truthy (optString (groupName props)) = false ->
  topic props = Some t ->
  editGroupTopic ozaClient (getProp t "id") (bodyOf formData) = Normal r ->
  let title := getProp formData "title" in
  let text := getProp formData "text" in
  let updated : TopicDetail := <["text" := text]> (<["title" := title]> t) in
  events (onSubmit ozaClient (Normal token) props formData s)
  = TurnstileExecute
      :: EditGroupTopic (getProp t "id") (bodyOf formData)
      :: (if (status r =? 200)%Z
          then [Mutate updated;
                Navigate ("/group/topic/" +:+ toString (getProp t "id"))]
          else [ConsoleError r; Toast (getProp (data r) "message")])
  /\ updated !! "title" = Some title
  /\ updated !! "text" = Some text
  /\ (forall k : string, k <> "title" -> k <> "text" -> updated !! k = t !! k)
  /\ updated !! "cf-turnstile-response" = t !! "cf-turnstile-response".
Proof.
  intros Htok Hg Ht Hr title text updated.
  split; [| repeat split].
  - rewrite onSubmit_token by exact Htok. cbv zeta.
    rewrite Hg, Ht. rewrite (editTopic_normal _ _ _ t _ r) by assumption.
    reflexivity.
  - subst updated. rewrite lookup_insert_ne by discriminate.
    apply lookup_insert_eq.
  - subst updated. apply lookup_insert_eq.
  - intros k Hk1 Hk2. subst updated.
    rewrite lookup_insert_ne by congruence.
    rewrite lookup_insert_ne by congruence. reflexivity.
  - subst updated.
    rewrite lookup_insert_ne by discriminate.
    rewrite lookup_insert_ne by discriminate. reflexivity.
Qed.

Lemma edit_response_handling_witness :
  events (onSubmit (answering edited) (Normal (JsString "tok")) editProps
            (formValues (filled (JsString "new") (JsString "new body")))
            (filled (JsString "new") (JsString "new body")))
  = [TurnstileExecute;
     EditGroupTopic (JsNumber 7)
       (bodyOf (formValues (filled (JsString "new") (JsString "new body"))));
     Mutate (<["text" := JsString "new body"]> (<["title" := JsString "new"]> topic7));
     Navigate "/group/topic/7"].
Proof.
  apply (edit_response_handling (answering edited) editProps
           (formValues (filled (JsString "new") (JsString "new body")))
           (filled (JsString "new") (JsString "new body"))
           (JsString "tok") topic7 edited); reflexivity.
Defined.

(** The mutated topic of the edit scenario: new title and body, the other
    fields of the topic kept, no token. *)
Example edit_scenario_mutated_topic :
  let updated : TopicDetail :=
    <["text" := JsString "new body"]> (<["title" := JsString "new"]> topic7) in
  updated !! "id" = Some (JsNumber 7)
  /\ updated !! "title" = Some (JsString "new")
  /\ updated !! "text" = Some (JsString "new body")
  /\ updated !! "state" = Some (JsNumber 0)
  /\ updated !! "cf-turnstile-response" = None.
Proof. vm_compute. repeat split; reflexivity. Qed.

(** ** The sending flag *)

(** C6, as amended: when neither the challenge nor a write operation
    throws, the handler completes and the [sending] flag is cleared at its
    end, whether or not a token was obtained and whatever the status of the
    response. *)
Theorem sending_cleared_unless_thrown
    (ozaClient : OzaClient) (props : TopicFormProps) (formData : FormData)
    (s : FormState) (token : JsValue) :
  (forall g body, exists r, createNewGroupTopic ozaClient g body = Normal r) ->
  (forall id body, exists r, editGroupTopic ozaClient id body = Normal r) ->
  completion (onSubmit ozaClient (Normal token) props formData s) = Normal tt
  /\ sending (finalState (onSubmit ozaClient (Normal token) props formData s)) = false.
Proof.
  intros Hc He.
  destruct (truthy token) eqn:Htok.
  - rewrite onSubmit_token by exact Htok. cbv zeta.
    destruct (truthy (optString (groupName props))).
    + destruct (Hc (optString (groupName props)) (bodyOf formData)) as [r Hr].
      rewrite (postNewTopic_normal _ _ _ _ r) by exact Hr. split; reflexivity.
    + destruct (topic props) as [t|] eqn:Ht.
      * destruct (He (getProp t "id") (bodyOf formData)) as [r Hr].
        rewrite (editTopic_normal _ _ _ t _ r) by assumption. split; reflexivity.
      * split; reflexivity.
  - rewrite onSubmit_no_token by exact Htok. split; reflexivity.
Qed.

Lemma sending_cleared_unless_thrown_witness :
  completion (onSubmit (answering titleTooLong) (Normal (JsString "tok")) createProps
                (formValues (filled (JsString "hello") (JsString "world")))
                (filled (JsString "hello") (JsString "world"))) = Normal tt
  /\ sending (finalState
       (onSubmit (answering titleTooLong) (Normal (JsString "tok")) createProps
          (formValues (filled (JsString "hello") (JsString "world")))
          (filled (JsString "hello") (JsString "world")))) = false.
Proof.
  apply (sending_cleared_unless_thrown (answering titleTooLong) createProps).
  - intros g body. exists titleTooLong. reflexivity.
  - intros id body. exists titleTooLong. reflexivity.
Defined.

(** C6 as stated fails when something throws: with a token and a write
    operation that rejects, and also with a challenge that rejects, the
    handler ends by the throw and [sending] is still set. *)
Lemma sending_left_set_when_write_throws :
  let run := onSubmit (rejecting "Failed to fetch") (Normal (JsString "tok"))
               createProps
               (formValues (filled (JsString "hello") (JsString "world")))
               (filled (JsString "hello") (JsString "world")) in
  let run' := onSubmit (answering created42) (Throw "challenge failed")
                createProps
                (formValues (filled (JsString "hello") (JsString "world")))
                (filled (JsString "hello") (JsString "world")) in
  completion run = Throw "Failed to fetch"
  /\ sending (finalState run) = true
  /\ completion run' = Throw "challenge failed"
  /\ sending (finalState run') = true.
Proof. vm_compute. repeat split; reflexivity. Qed.

(** C7: when the challenge resolves to no token (a falsy value), the
    handler calls no write operation, shows no toast and logs nothing: the
    only call is the challenge itself, the handler completes, and [sending]
    is cleared with the rest of the store as it was. *)
Theorem no_token_silent_abort
    (ozaClient : OzaClient) (props : TopicFormProps) (formData : FormData)
    (s : FormState) (token : JsValue) :
  truthy token = false ->
  onSubmit ozaClient (Normal token) props formData s
  = (Normal tt,
     {| sending := false; formValues := formValues s; fields := fields s |},
     [TurnstileExecute]).
Proof. intros Htok. apply onSubmit_no_token. exact Htok. Qed.

Lemma no_token_silent_abort_witness :
  onSubmit (answering created42) (Normal JsUndefined) createProps
    (formValues (filled (JsString "hello") (JsString "world")))
    (filled (JsString "hello") (JsString "world"))
  = (Normal tt,
     {| sending := false;
        formValues := formValues (filled (JsString "hello") (JsString "world"));
        fields := fields (filled (JsString "hello") (JsString "world")) |},
     [TurnstileExecute]).
Proof.
  apply (no_token_silent_abort (answering created42) createProps
           (formValues (filled (JsString "hello") (JsString "world")))
           (filled (JsString "hello") (JsString "world")) JsUndefined).
  reflexivity.
Defined.

(** ** The check of the props *)

(** C4 as stated fails for an empty [groupName]: the check tests the
    truthiness of the prop, so an empty name supplied alone is rejected,
    and an empty name supplied together with a topic is accepted. *)
Lemma empty_groupName_counts_as_absent :
  let nameOnly := {| quickPost := None; groupName := Some ""; topic := None |} in
  let both := {| quickPost := None; groupName := Some ""; topic := Some topic7 |} in
  (is_Some (groupName nameOnly) /\ topic nameOnly = None
   /\ completion (TopicForm (fun k => k) nameOnly (mountState nameOnly))
      = Throw "Invalid usage: should specify either groupName or topic")
  /\ (is_Some (groupName both) /\ is_Some (topic both)
      /\ exists e, completion (TopicForm (fun k => k) both (mountState both))
                   = Normal e).
Proof.
  cbv zeta. split; [split; [| split] | split; [| split]].
  - eexists; reflexivity.
  - reflexivity.
  - reflexivity.
  - eexists; reflexivity.
  - eexists; reflexivity.
  - eexists. vm_compute. reflexivity.
Qed.

(** C4, as amended: counting a [groupName] as supplied only when it is a
    non-empty string, the component throws its configuration error when
    both props or neither are supplied, as its first step (the store is
    untouched: no input was registered, and there is no output); when
    exactly one is supplied it does not throw and renders one title input
    and one body editor. *)
Theorem props_check_first (styles : string -> string) (props : TopicFormProps)
    (s : FormState) :
  let hasName := match groupName props with
                 | Some g => negb (String.eqb g "")
                 | None => false
                 end in
  let hasTopic := match topic props with Some _ => true | None => false end in
  if Bool.eqb hasName hasTopic
  then TopicForm styles props s
       = (Throw "Invalid usage: should specify either groupName or topic", s, [])
  else exists e,
      completion (TopicForm styles props s) = Normal e
      /\ length (elementsOfType "Input" e) = 1%nat
      /\ length (elementsOfType "EditorForm" e) = 1%nat.
Proof.
  destruct props as [qp gn tp]. cbn [groupName topic].
  destruct gn as [g|]; [destruct (String.eqb g "") eqn:Hg |];
    destruct tp as [t|];
    unfold TopicForm; cbn [groupName topic quickPost optString truthy];
    rewrite ?Hg; cbn -[String.eqb];
    try reflexivity;
    destruct qp as [[|]|]; eexists; (split; [reflexivity | split; reflexivity]).
Qed.

(** ** Validation *)

(** The fields a rendered form has registered: the title first, then the
    body, each with its [required] message. *)
Lemma rendered_fields (styles : string -> string) (props : TopicFormProps)
    (e : Element) :
  completion (TopicForm styles props (mountState props)) = Normal e ->
  fields (finalState (TopicForm styles props (mountState props)))
  = [("title", "请填写标题"); ("text", "请填写正文内容")].
Proof.
  destruct props as [qp gn tp]. unfold TopicForm. cbn [groupName topic quickPost].
  destruct ((truthy (optString gn) && bool_decide (is_Some tp))
            || (negb (truthy (optString gn)) && negb (bool_decide (is_Some tp)))).
  - discriminate.
  - intros _. destruct (default false qp); reflexivity.
Qed.

(** C5: in a rendered form, a submission with a missing title or a missing
    body calls no write operation (the only call is the toast) and shows
    the first validation message: "请填写标题" when the title is missing,
    "请填写正文内容" when only the body is. *)
Theorem missing_field_message
    (ozaClient : OzaClient) (execute : Completion JsValue)
    (styles : string -> string) (props : TopicFormProps)
    (s : FormState) (e : Element) :
  completion (TopicForm styles props (mountState props)) = Normal e ->
  fields s = fields (finalState (TopicForm styles props (mountState props))) ->
  isMissing (getProp (formValues s) "title")
    || isMissing (getProp (formValues s) "text") = true ->
  onConfirm ozaClient execute props s
  = (Normal tt, s,
     [Toast (JsString (if isMissing (getProp (formValues s) "title")
                       then "请填写标题" else "请填写正文内容"))]).
Proof.
  intros Hrender Hfields Hmissing.
  rewrite (rendered_fields styles props e Hrender) in Hfields.
  unfold onConfirm, handleSubmit. rewrite Hfields. cbn [validate].
  destruct (isMissing (getProp (formValues s) "title"));
    destruct (isMissing (getProp (formValues s) "text"));
    try discriminate; reflexivity.
Qed.

Lemma missing_field_message_witness :
  onConfirm (answering created42) (Normal (JsString "tok")) createProps
    (filled (JsString "") (JsString "world"))
  = (Normal tt, filled (JsString "") (JsString "world"),
     [Toast (JsString "请填写标题")]).
Proof.
  apply (missing_field_message (answering created42) (Normal (JsString "tok"))
           (fun k => k) createProps (filled (JsString "") (JsString "world"))
           (Elem "Fragment" []
              [Elem "div" [("className", JsString "titleInput")]
                 [Elem "Input"
                    [("rounded", JsBoolean true);
                     ("placeholder", JsString "取个标题…");
                     ("name", JsString "title")] []];
               Elem "div" [("className", JsString "contentEditor")]
                 [Elem "EditorForm"
                    [("placeholder", JsString "话题正文…");
                     ("hideCancel", JsBoolean true);
                     ("confirmText", JsUndefined);
                     ("rows", JsNumber 15);
                     ("name", JsString "text");
                     ("value", JsUndefined)] []]])); reflexivity.
Defined.

(** The second validation scenario of the spec, and the case of both
    fields missing, where the title's message comes first. *)
Example missing_body_scenario :
  events (onConfirm (answering created42) (Normal (JsString "tok")) createProps
            (filled (JsString "hello") (JsString "")))
  = [Toast (JsString "请填写正文内容")]
  /\ events (onConfirm (answering created42) (Normal (JsString "tok")) createProps
               (filled JsUndefined JsUndefined))
     = [Toast (JsString "请填写标题")].
Proof. vm_compute. split; reflexivity. Qed.

(** ** The thread data source *)

Lemma groupPostKey_inj (id id' : Z) :
  groupPostKey id = groupPostKey id' -> id = id'.
Proof.
  unfold groupPostKey, toString. intros Heq.
  apply (inj (String.app "/group/post/")) in Heq.
  apply (inj pretty) in Heq. exact Heq.
Qed.

Lemma useGroupPost_returns (Reply : Type) (getGroupPost : Z -> Completion Reply)
    (id : Z) (cache cache1 : gmap string Reply) (ret : UseGroupPostRet Reply)
    (fetches : list Fetch) :
  useGroupPost Reply getGroupPost id cache = (Normal ret, cache1, fetches) ->
  mutate ret = boundMutate Reply (groupPostKey id)
  /\ cache1 !! groupPostKey id = Some (post_data ret).
Proof.
  unfold useGroupPost, useSWR. intros Hread.
  destruct (cache !! groupPostKey id) as [v|] eqn:Hc.
  - inversion Hread; subst. split; [reflexivity | exact Hc].
  - cbn [snd fst] in Hread. destruct (getGroupPost id) as [v|e].
    + inversion Hread; subst. split; [reflexivity |]. apply lookup_insert_eq.
    + discriminate.
Qed.



(** The keys of threads 7 and 8, and a read that has to fetch. *)
Example groupPostKey_samples :
  groupPostKey 7 = "/group/post/7" /\ groupPostKey 8 = "/group/post/8"
  /\ snd (useGroupPost string (fun _ => Normal "fetched") 7 ∅) = [GetGroupPost 7].
Proof. vm_compute. repeat split; reflexivity. Qed.

(** ** The topic header *)

Section MemoFacts.

Context {P : Type}.
Variable areEqual : P -> P -> bool.
Variable view : P -> Element.
Variable component : P -> Render Element.
Hypothesis areEqual_sound : forall p q, areEqual p q = true -> p = q.
Hypothesis component_returns :
  forall p cells, component p cells = (view p, cells, []).

(** With props equal to the previous ones the component does not run. *)
Lemma memo_reuse (p p0 : P) (e0 : Element) (m : MemoState) :
  lastRender m = Some (p0, e0) ->
  areEqual p0 p = true ->
  memo areEqual component p m = (e0, m, []).
Proof. intros Hlast Heq. unfold memo. rewrite Hlast, Heq. reflexivity. Qed.

Lemma memo_step (p : P) (m : MemoState) :
  memoOk view m ->
  fst (fst (memo areEqual component p m)) = view p
  /\ memoOk view (snd (fst (memo areEqual component p m)))
  /\ snd (memo areEqual component p m) = []
  /\ hooks (snd (fst (memo areEqual component p m))) = hooks m.
Proof.
  unfold memoOk, memo, runComponent. intros Hok.
  rewrite component_returns.
  destruct (lastRender m) as [[p0 e0]|] eqn:Hlast.
  - destruct (areEqual p0 p) eqn:Heq; cbn [fst snd lastRender hooks].
    + apply areEqual_sound in Heq. subst p0.
      rewrite Hlast. repeat split; exact Hok.
    + repeat split; reflexivity.
  - cbn [fst snd lastRender hooks]. repeat split; reflexivity.
Qed.

Lemma renderAll_memo (ps : list P) :
  forall m, memoOk view m ->
  fst (fst (renderAll (memo areEqual component) ps m)) = map view ps
  /\ snd (renderAll (memo areEqual component) ps m) = []
  /\ hooks (snd (fst (renderAll (memo areEqual component) ps m))) = hooks m.
Proof.
  induction ps as [|p ps IH]; intros m Hok; [repeat split; reflexivity |].
  cbn [renderAll map].
  destruct (memo_step p m Hok) as (Hout & Hok' & Hcalled & Hhooks).
  destruct (memo areEqual component p m) as [[e m1] l1].
  cbn [fst snd] in Hout, Hok', Hcalled, Hhooks.
  destruct (IH m1 Hok') as (IHout & IHcalled & IHhooks).
  destruct (renderAll (memo areEqual component) ps m1) as [[es m2] l2].
  cbn [fst snd] in *. subst l1 l2.
  rewrite Hout, IHout, IHhooks, Hhooks. repeat split; reflexivity.
Qed.

(** Once [p] has been rendered, rendering [p] again any number of times
    leaves the state as it is. *)
Lemma renderAll_same_props (p : P) (n : nat) :
  areEqual p p = true ->
  forall (m : MemoState) (e : Element),
    lastRender m = Some (p, e) ->
    snd (fst (renderAll (memo areEqual component) (List.repeat p n) m)) = m.
Proof.
  intros Hrefl. induction n as [|n IH]; intros m e Hlast; [reflexivity |].
  cbn [List.repeat renderAll].
  rewrite (memo_reuse p p e m Hlast Hrefl).
  specialize (IH m e Hlast).
  destruct (renderAll (memo areEqual component) (List.repeat p n) m)
    as [[es m2] l2].
  cbn [fst snd] in *. exact IH.
Qed.

Lemma renderAll_runs_once (p : P) (n : nat) :
  areEqual p p = true ->
  calls (snd (fst (renderAll (memo areEqual component)
                     (List.repeat p (S n)) memoInit))) = 1%nat.
Proof.
  intros Hrefl. cbn [List.repeat renderAll].
  unfold memo at 1. unfold memoInit. cbn [lastRender]. unfold runComponent.
  cbn [hooks calls]. rewrite component_returns.
  pose proof (renderAll_same_props p n Hrefl
                {| lastRender := Some (p, view p); calls := 1; hooks := [] |}
                (view p) eq_refl) as Hsame.
  destruct (renderAll (memo areEqual component) (List.repeat p n)
              {| lastRender := Some (p, view p); calls := 1; hooks := [] |})
    as [[es m2] l2].
  cbn [fst snd] in *. subst m2. reflexivity.
Qed.

End MemoFacts.



(** C10: whatever its inputs, the header renders exactly one comment-info
    element, and passes it the floor "1" together with the creation time
    and the identifier of the topic. *)
Theorem header_floor_is_one
    (getUserProfileLink : string -> string) (styles : string -> string)
    (h : Header.t) :
  elementsOfType "CommentInfo" (GroupTopicHeader getUserProfileLink styles h)
  = [Elem "CommentInfo"
       [("createdAt", JsNumber (Header.createdAt h));
        ("floor", JsString "1");
        ("id", JsNumber (Header.id h))] []]
  /\ map (fun e => lookupProp "floor" (elemProps e))
         (elementsOfType "CommentInfo" (GroupTopicHeader getUserProfileLink styles h))
     = [JsString "1"].
Proof. split; reflexivity. Qed.


(** * Further properties of the form and the header *)

(** ** Case analysis of a submission *)

(** The props the component accepts put the form in exactly one mode. *)
Lemma accepted_modes (styles : string -> string) (props : TopicFormProps)
    (s : FormState) (e : Element) :
  completion (TopicForm styles props s) = Normal e ->
  (truthy (optString (groupName props)) = true /\ topic props = None)
  \/ (truthy (optString (groupName props)) = false
      /\ exists t, topic props = Some t).
Proof.
  unfold TopicForm.
  destruct (truthy (optString (groupName props)));
    destruct (topic props) as [t|]; cbn; intros H; try discriminate.
  - left. split; reflexivity.
  - right. split; [reflexivity | exists t; reflexivity].
Qed.

(** Splits a goal about [onSubmit] along the paths of the handler: the
    challenge rejects, gives no token, or gives one; then the mode; then
    the answer or the rejection of the write operation. *)
Ltac submit_cases ozaClient execute props formData :=
  let token := fresh "token" in
  let err := fresh "err" in
  let Htok := fresh "Htok" in
  let Hmode := fresh "Hmode" in
  let Htopic := fresh "Htopic" in
  let Hcall := fresh "Hcall" in
  destruct execute as [token|err];
  [ destruct (truthy token) eqn:Htok;
    [ rewrite (onSubmit_token ozaClient props token formData) by exact Htok;
      cbv zeta;
      destruct (truthy (optString (groupName props))) eqn:Hmode;
      [ destruct (createNewGroupTopic ozaClient (optString (groupName props))
                    (bodyOf formData)) eqn:Hcall;
        [ erewrite postNewTopic_normal by exact Hcall
        | erewrite postNewTopic_throw by exact Hcall ]
      | destruct (topic props) as [?t|] eqn:Htopic;
        [ match goal with
          | |- context [editTopic _ _ _ (getProp ?t "id")] =>
              destruct (editGroupTopic ozaClient (getProp t "id")
                          (bodyOf formData)) eqn:Hcall;
              [ erewrite (editTopic_normal ozaClient props formData t)
                  by (exact Htopic || exact Hcall)
              | erewrite editTopic_throw by exact Hcall ]
          end
        | unfold ret ] ]
    | rewrite (onSubmit_no_token ozaClient props token formData) by exact Htok ]
  | rewrite (onSubmit_execute_throw ozaClient props err formData) ];
  cbn [completion finalState events fst snd sending formValues fields].

(** ** What a submission does to the store *)

(** Whatever the outcome of a submission (completed or thrown), the
    registered fields are as before and every value of the store other than
    the token is as before: the handler never touches title or body. *)
Theorem submission_store_frame
    (ozaClient : OzaClient) (execute : Completion JsValue)
    (props : TopicFormProps) (formData : FormData) (s : FormState) :
  let s' := finalState (onSubmit ozaClient execute props formData s) in
  fields s' = fields s
  /\ (forall k : string, k <> "cf-turnstile-response" ->
        formValues s' !! k = formValues s !! k).
Proof.
  cbv zeta.
  submit_cases ozaClient execute props formData;
    (split; [reflexivity | intros k Hk; try reflexivity;
             apply lookup_insert_ne; congruence]).
Qed.

(** Once the challenge has given a token, the token is in the form's store
    at the end of the submission, whatever the mode and whatever the write
    operation does (answers with any status, or rejects). *)
Theorem token_stored_whatever_follows
    (ozaClient : OzaClient) (props : TopicFormProps) (formData : FormData)
    (s : FormState) (token : JsValue) :
  truthy token = true ->
  getProp (formValues (finalState
             (onSubmit ozaClient (Normal token) props formData s)))
          "cf-turnstile-response"
  = token.
Proof.
  intros Htok.
  rewrite (onSubmit_token ozaClient props token formData) by exact Htok.
  cbv zeta.
  assert (Hstored :
    forall fs, getProp (<["cf-turnstile-response" := token]> fs)
                 "cf-turnstile-response" = token).
  { intros fs. unfold getProp. rewrite lookup_insert_eq. reflexivity. }
  destruct (truthy (optString (groupName props))).
  - destruct (createNewGroupTopic ozaClient (optString (groupName props))
                (bodyOf formData)) eqn:Hcall.
    + erewrite postNewTopic_normal by exact Hcall. apply Hstored.
    + erewrite postNewTopic_throw by exact Hcall. apply Hstored.
  - destruct (topic props) as [t|] eqn:Htopic.
    + destruct (editGroupTopic ozaClient (getProp t "id") (bodyOf formData))
        eqn:Hcall.
      * erewrite (editTopic_normal ozaClient props formData t)
          by (exact Htopic || exact Hcall).
        apply Hstored.
      * erewrite editTopic_throw by exact Hcall. apply Hstored.
    + apply Hstored.
Qed.

Lemma token_stored_whatever_follows_witness :
  getProp (formValues (finalState
             (onSubmit (rejecting "Failed to fetch") (Normal (JsString "tok"))
                editProps
                (formValues (filled (JsString "new") (JsString "new body")))
                (filled (JsString "new") (JsString "new body")))))
          "cf-turnstile-response"
  = JsString "tok".
Proof.
  apply (token_stored_whatever_follows (rejecting "Failed to fetch") editProps
           (formValues (filled (JsString "new") (JsString "new body")))
           (filled (JsString "new") (JsString "new body")) (JsString "tok")).
  reflexivity.
Defined.

(** ** The calls of a submission *)

(** Every submission, whatever its inputs and outcome, starts with the
    challenge, runs it once, and makes at most one write call. *)
Theorem challenge_first_at_most_one_write
    (ozaClient : OzaClient) (execute : Completion JsValue)
    (props : TopicFormProps) (formData : FormData) (s : FormState) :
  let calls := events (onSubmit ozaClient execute props formData s) in
  head calls = Some TurnstileExecute
  /\ length (List.filter isChallenge calls) = 1%nat
  /\ (length (List.filter isWrite calls) <= 1)%nat.
Proof.
  cbv zeta.
  submit_cases ozaClient execute props formData;
    unfold afterCreate, afterEdit;
    try match goal with
        | |- context [(status ?r =? 200)%Z] => destruct (status r =? 200)%Z
        end;
    cbn; repeat split; lia.
Qed.

(** In a form whose props the component accepted, a submission that got a
    token makes exactly one write call, whatever that call then answers:
    the create operation with the [groupName] in create mode, the edit
    operation with the topic's [id] in edit mode, each with the title, text
    and token of the values handed to the handler. *)
Theorem accepted_form_one_write
    (ozaClient : OzaClient) (styles : string -> string)
    (props : TopicFormProps) (formData : FormData)
    (s0 s : FormState) (e : Element) (token : JsValue) :
  completion (TopicForm styles props s0) = Normal e ->
  truthy token = true ->
  List.filter isWrite (events (onSubmit ozaClient (Normal token) props formData s))
  = [writeCall props formData].
Proof.
  intros Hok Htok. unfold writeCall.
  destruct (accepted_modes styles props s0 e Hok) as [[Hg Ht] | [Hg [t Ht]]].
  - rewrite (onSubmit_token ozaClient props token formData) by exact Htok.
    cbv zeta. rewrite Hg.
    destruct (createNewGroupTopic ozaClient (optString (groupName props))
                (bodyOf formData)) eqn:Hcall.
    + erewrite postNewTopic_normal by exact Hcall.
      unfold afterCreate. destruct (status a =? 200)%Z; reflexivity.
    + erewrite postNewTopic_throw by exact Hcall. reflexivity.
  - rewrite (onSubmit_token ozaClient props token formData) by exact Htok.
    cbv zeta. rewrite Hg, Ht. cbn [default].
    destruct (editGroupTopic ozaClient (getProp t "id") (bodyOf formData))
      eqn:Hcall.
    + erewrite (editTopic_normal ozaClient props formData t)
        by (exact Ht || exact Hcall).
      unfold afterEdit. destruct (status a =? 200)%Z; reflexivity.
    + erewrite editTopic_throw by exact Hcall. reflexivity.
Qed.

Lemma accepted_form_one_write_witness :
  List.filter isWrite
    (events (onSubmit (answering titleTooLong) (Normal (JsString "tok")) editProps
               (formValues (filled (JsString "new") (JsString "new body")))
               (filled (JsString "new") (JsString "new body"))))
  = [writeCall editProps
       (formValues (filled (JsString "new") (JsString "new body")))].
Proof.
  eapply (accepted_form_one_write (answering titleTooLong) (fun k => k) editProps
            (formValues (filled (JsString "new") (JsString "new body")))
            (mountState editProps)
            (filled (JsString "new") (JsString "new body")) _ (JsString "tok"));
    reflexivity.
Defined.

(** A submission ends in one of two ways. Either the handler completes and
    [sending] is cleared; or it ends by a throw, and then [sending] is still
    set, nothing reached the user (no toast, no navigation, no console line,
    no mutator call), and the error is the one the challenge or the write
    operation rejected with. *)
Theorem thrown_submission_is_silent
    (ozaClient : OzaClient) (execute : Completion JsValue)
    (props : TopicFormProps) (formData : FormData) (s : FormState) :
  let run := onSubmit ozaClient execute props formData s in
  match completion run with
  | Normal _ => sending (finalState run) = false
  | Throw err =>
      sending (finalState run) = true
      /\ List.filter isFeedback (events run) = []
      /\ (execute = Throw err
          \/ createNewGroupTopic ozaClient (optString (groupName props))
               (bodyOf formData) = Throw err
          \/ exists t, topic props = Some t
               /\ editGroupTopic ozaClient (getProp t "id") (bodyOf formData)
                  = Throw err)
  end.
Proof.
  cbv zeta.
  submit_cases ozaClient execute props formData; try reflexivity.
  - split; [reflexivity | split; [reflexivity |]]. right. left. reflexivity.
  - split; [reflexivity | split; [reflexivity |]]. right. right.
    exists t. split; [reflexivity | exact Hcall].
  - split; [reflexivity | split; [reflexivity |]]. left. reflexivity.
Qed.

(** ** Navigation and mutation happen only after a 200 *)

(** A submission navigates only when a write operation answered with status
    200: in create mode to the page of the [id] in the response, in edit
    mode to the page of the topic's own [id]. *)
Theorem navigation_only_after_200
    (ozaClient : OzaClient) (execute : Completion JsValue)
    (props : TopicFormProps) (formData : FormData) (s : FormState)
    (to : string) :
  In (Navigate to) (events (onSubmit ozaClient execute props formData s)) ->
  exists r : Response,
    status r = 200%Z
    /\ ((truthy (optString (groupName props)) = true
         /\ createNewGroupTopic ozaClient (optString (groupName props))
              (bodyOf formData) = Normal r
         /\ to = topicPage (getProp (data r) "id"))
        \/ (truthy (optString (groupName props)) = false
            /\ exists t, topic props = Some t
                 /\ editGroupTopic ozaClient (getProp t "id") (bodyOf formData)
                    = Normal r
                 /\ to = topicPage (getProp t "id"))).
Proof.
  submit_cases ozaClient execute props formData;
    unfold afterCreate, afterEdit;
    try match goal with
        | |- context [(status ?r =? 200)%Z] =>
            destruct (status r =? 200)%Z eqn:Hstatus
        end;
    cbn [In]; intros Hin;
    repeat match goal with
           | H : _ \/ _ |- _ => destruct H
           | H : False |- _ => destruct H
           | H : _ = Navigate _ |- _ => inversion H; clear H; subst
           end.
  - exists a. split; [apply Z.eqb_eq; exact Hstatus |].
    left. repeat split; reflexivity.
  - exists a. split; [apply Z.eqb_eq; exact Hstatus |].
    right. split; [reflexivity |]. exists t. repeat split; auto.
Qed.

Lemma navigation_only_after_200_witness :
  exists r : Response,
    status r = 200%Z
    /\ ((truthy (optString (groupName createProps)) = true
         /\ createNewGroupTopic (answering created42)
              (optString (groupName createProps))
              (bodyOf (formValues (filled (JsString "hello") (JsString "world"))))
            = Normal r
         /\ "/group/topic/42" = topicPage (getProp (data r) "id"))
        \/ (truthy (optString (groupName createProps)) = false
            /\ exists t, topic createProps = Some t
                 /\ editGroupTopic (answering created42) (getProp t "id")
                      (bodyOf (formValues (filled (JsString "hello") (JsString "world"))))
                    = Normal r
                 /\ "/group/topic/42" = topicPage (getProp t "id"))).
Proof.
  apply (navigation_only_after_200 (answering created42)
           (Normal (JsString "tok")) createProps
           (formValues (filled (JsString "hello") (JsString "world")))
           (filled (JsString "hello") (JsString "world")) "/group/topic/42").
  vm_compute. right. right. left. reflexivity.
Defined.

(** The mutator is called only in edit mode and only after the edit
    operation answered with status 200; what it gets is the topic's data
    with the submitted title and text. In create mode it is never called. *)
Theorem mutation_only_after_edit_200
    (ozaClient : OzaClient) (execute : Completion JsValue)
    (props : TopicFormProps) (formData : FormData) (s : FormState)
    (d : TopicDetail) :
  In (Mutate d) (events (onSubmit ozaClient execute props formData s)) ->
  truthy (optString (groupName props)) = false
  /\ exists (t : TopicDetail) (r : Response),
       topic props = Some t
       /\ editGroupTopic ozaClient (getProp t "id") (bodyOf formData) = Normal r
       /\ status r = 200%Z
       /\ d = <["text" := getProp formData "text"]>
                (<["title" := getProp formData "title"]> t).
Proof.
  submit_cases ozaClient execute props formData;
    unfold afterCreate, afterEdit;
    try match goal with
        | |- context [(status ?r =? 200)%Z] =>
            destruct (status r =? 200)%Z eqn:Hstatus
        end;
    cbn [In]; intros Hin;
    repeat match goal with
           | H : _ \/ _ |- _ => destruct H
           | H : False |- _ => destruct H
           | H : _ = Mutate _ |- _ => inversion H; clear H; subst
           end.
  split; [reflexivity |]. exists t, a.
  repeat split; auto. apply Z.eqb_eq. exact Hstatus.
Qed.

Lemma mutation_only_after_edit_200_witness :
  truthy (optString (groupName editProps)) = false
  /\ exists (t : TopicDetail) (r : Response),
       topic editProps = Some t
       /\ editGroupTopic (answering edited) (getProp t "id")
            (bodyOf (formValues (filled (JsString "new") (JsString "new body"))))
          = Normal r
       /\ status r = 200%Z
       /\ <["text" := JsString "new body"]> (<["title" := JsString "new"]> topic7)
          = <["text" := getProp (formValues (filled (JsString "new") (JsString "new body"))) "text"]>
              (<["title" := getProp (formValues (filled (JsString "new") (JsString "new body"))) "title"]> t).
Proof.
  apply (mutation_only_after_edit_200 (answering edited)
           (Normal (JsString "tok")) editProps
           (formValues (filled (JsString "new") (JsString "new body")))
           (filled (JsString "new") (JsString "new body"))).
  vm_compute. right. right. left. reflexivity.
Defined.

(** ** Edge cases of the responses and of the request body *)

(** A create response whose [data] object lacks the property the handler
    reads is not detected. With status 200 and no [id] in [data], the
    handler navigates to [/group/topic/undefined]; with another status and
    no [message] in [data], it logs the response and shows a toast of
    [undefined]. *)
Theorem create_answer_missing_property
    (ozaClient : OzaClient) (props : TopicFormProps) (formData : FormData)
    (s : FormState) (token : JsValue) (r : Response) :
  truthy token = true ->
  truthy (optString (groupName props)) = true ->
  createNewGroupTopic ozaClient (optString (groupName props)) (bodyOf formData)
    = Normal r ->
  (status r = 200%Z ->
   data r !! "id" = None ->
   events (onSubmit ozaClient (Normal token) props formData s)
   = [TurnstileExecute;
      CreateNewGroupTopic (optString (groupName props)) (bodyOf formData);
      Navigate "/group/topic/undefined"])
  /\ (status r <> 200%Z ->
      data r !! "message" = None ->
      events (onSubmit ozaClient (Normal token) props formData s)
      = [TurnstileExecute;
         CreateNewGroupTopic (optString (groupName props)) (bodyOf formData);
         ConsoleError r;
         Toast JsUndefined]).
Proof.
  intros Htok Hg Hr.
  rewrite (onSubmit_token ozaClient props token formData) by exact Htok.
  cbv zeta. rewrite Hg.
  erewrite postNewTopic_normal by exact Hr.
  unfold afterCreate, getProp. split.
  - intros Hstatus Hid.
    rewrite (proj2 (Z.eqb_eq (status r) 200) Hstatus), Hid. reflexivity.
  - intros Hstatus Hmsg.
    rewrite (proj2 (Z.eqb_neq (status r) 200) Hstatus), Hmsg. reflexivity.
Qed.

Lemma create_answer_missing_property_witness :
  (status edited = 200%Z ->
   data edited !! "id" = None ->
   events (onSubmit (answering edited) (Normal (JsString "tok")) createProps
             (formValues (filled (JsString "hello") (JsString "world")))
             (filled (JsString "hello") (JsString "world")))
   = [TurnstileExecute;
      CreateNewGroupTopic (optString (groupName createProps))
        (bodyOf (formValues (filled (JsString "hello") (JsString "world"))));
      Navigate "/group/topic/undefined"])
  /\ (status edited <> 200%Z ->
      data edited !! "message" = None ->
      events (onSubmit (answering edited) (Normal (JsString "tok")) createProps
                (formValues (filled (JsString "hello") (JsString "world")))
                (filled (JsString "hello") (JsString "world")))
      = [TurnstileExecute;
         CreateNewGroupTopic (optString (groupName createProps))
           (bodyOf (formValues (filled (JsString "hello") (JsString "world"))));
         ConsoleError edited;
         Toast JsUndefined]).
Proof.
  apply (create_answer_missing_property (answering edited) createProps
           (formValues (filled (JsString "hello") (JsString "world")))
           (filled (JsString "hello") (JsString "world"))
           (JsString "tok") edited); reflexivity.
Defined.

(** The three properties of a request body. *)
Lemma bodyOf_lookup (formData : FormData) (k : string) :
  bodyOf formData !! k
  = if String.eqb k "title" || String.eqb k "text"
       || String.eqb k "cf-turnstile-response"
    then Some (getProp formData k)
    else None.
Proof.
  unfold bodyOf, topicBody.
  destruct (String.eqb_spec k "cf-turnstile-response") as [-> | Hk3].
  - rewrite lookup_insert_eq. reflexivity.
  - rewrite lookup_insert_ne by congruence.
    destruct (String.eqb_spec k "text") as [-> | Hk2].
    + rewrite lookup_insert_eq. reflexivity.
    + rewrite lookup_insert_ne by congruence.
      destruct (String.eqb_spec k "title") as [-> | Hk1].
      * rewrite lookup_insert_eq. reflexivity.
      * rewrite lookup_insert_ne by congruence. apply lookup_empty.
Qed.

(** Whatever write call a submission makes, in either mode and whatever
    the call then answers, the body it is sent has exactly three
    properties, each read from the values handed to the handler: [title],
    [text] and ['cf-turnstile-response']. A property those values lack is
    sent as [undefined]; any other property they have is not sent. *)
Theorem write_body_has_three_properties
    (ozaClient : OzaClient) (execute : Completion JsValue)
    (props : TopicFormProps) (formData : FormData) (s : FormState)
    (e : Event) (body : JsObject) (k : string) :
  In e (events (onSubmit ozaClient execute props formData s)) ->
  writeBody e = Some body ->
  body !! k
  = if String.eqb k "title" || String.eqb k "text"
       || String.eqb k "cf-turnstile-response"
    then Some (getProp formData k)
    else None.
Proof.
  submit_cases ozaClient execute props formData;
    unfold afterCreate, afterEdit;
    try match goal with
        | |- context [(status ?r =? 200)%Z] => destruct (status r =? 200)%Z
        end;
    cbn [In]; intros Hin Hbody;
    repeat match goal with
           | H : _ \/ _ |- _ => destruct H
           | H : False |- _ => destruct H
           end;
    subst e; cbn [writeBody] in Hbody; try discriminate;
    injection Hbody as <-; apply bodyOf_lookup.
Qed.

Lemma write_body_has_three_properties_witness :
  bodyOf (formValues (filled (JsString "new") (JsString "new body")))
    !! "cf-turnstile-response"
  = if String.eqb "cf-turnstile-response" "title"
       || String.eqb "cf-turnstile-response" "text"
       || String.eqb "cf-turnstile-response" "cf-turnstile-response"
    then Some (getProp (formValues (filled (JsString "new") (JsString "new body")))
                 "cf-turnstile-response")
    else None.
Proof.
  apply (write_body_has_three_properties (answering titleTooLong)
           (Normal (JsString "tok")) editProps
           (formValues (filled (JsString "new") (JsString "new body")))
           (filled (JsString "new") (JsString "new body"))
           (EditGroupTopic (JsNumber 7)
              (bodyOf (formValues (filled (JsString "new") (JsString "new body")))))).
  - vm_compute. right. left. reflexivity.
  - reflexivity.
Defined.

(** ** Editing without a change *)

Lemma getProp_insert_eq (o : JsObject) (k : string) (v : JsValue) :
  getProp (<[k := v]> o) k = v.
Proof. unfold getProp. rewrite lookup_insert_eq. reflexivity. Qed.

Lemma getProp_insert_ne (o : JsObject) (k k' : string) (v : JsValue) :
  k <> k' -> getProp (<[k := v]> o) k' = getProp o k'.
Proof. intros Hk. unfold getProp. rewrite lookup_insert_ne by exact Hk. reflexivity. Qed.

Lemma getProp_empty (k : string) : getProp ∅ k = JsUndefined.
Proof. unfold getProp. rewrite lookup_empty. reflexivity. Qed.

Ltac read_props :=
  repeat (rewrite getProp_insert_eq
          || rewrite getProp_insert_ne by discriminate
          || rewrite getProp_empty).

(** The values a form is mounted with in edit mode: the topic's title and
    text, and no token. *)
Lemma mount_values_edit (props : TopicFormProps) (t : TopicDetail) :
  topic props = Some t ->
  getProp (formValues (mountState props)) "title" = getProp t "title"
  /\ getProp (formValues (mountState props)) "text" = getProp t "text"
  /\ getProp (formValues (mountState props)) "cf-turnstile-response"
     = JsUndefined.
Proof.
  intros Ht. unfold mountState. cbn [formValues]. rewrite Ht.
  repeat split; read_props; reflexivity.
Qed.

(** In edit mode, submitting the values the form was mounted with (the
    topic's own title and text) sends those to the edit operation and, on
    status 200, hands the mutator the topic's data unchanged, then
    navigates to the topic's page. *)
Theorem unchanged_edit_keeps_topic
    (ozaClient : OzaClient) (props : TopicFormProps) (s : FormState)
    (token title text : JsValue) (t : TopicDetail) (r : Response) :
  truthy token = true ->
  truthy (optString (groupName props)) = false ->
  topic props = Some t ->
  t !! "title" = Some title ->
  t !! "text" = Some text ->
  editGroupTopic ozaClient (getProp t "id") (topicBody title text JsUndefined)
    = Normal r ->
  status r = 200%Z ->
  events (onSubmit ozaClient (Normal token) props (formValues (mountState props)) s)
  = [TurnstileExecute;
     EditGroupTopic (getProp t "id") (topicBody title text JsUndefined);
     Mutate t;
     Navigate (topicPage (getProp t "id"))].
Proof.
  intros Htok Hg Ht Htitle Htext Hr Hstatus.
  destruct (mount_values_edit props t Ht) as (Hgt & Hgx & Hgc).
  assert (Htt : getProp t "title" = title).
  { unfold getProp. rewrite Htitle. reflexivity. }
  assert (Htx : getProp t "text" = text).
  { unfold getProp. rewrite Htext. reflexivity. }
  rewrite Htt in Hgt. rewrite Htx in Hgx.
  assert (Hbody : bodyOf (formValues (mountState props))
                  = topicBody title text JsUndefined).
  { unfold bodyOf. rewrite Hgt, Hgx, Hgc. reflexivity. }
  rewrite (onSubmit_token ozaClient props token) by exact Htok.
  cbv zeta. rewrite Hg, Ht.
  erewrite (editTopic_normal ozaClient props _ t)
    by (exact Ht || (rewrite Hbody; exact Hr)).
  rewrite Hbody, Hgt, Hgx. unfold afterEdit.
  rewrite (proj2 (Z.eqb_eq (status r) 200) Hstatus).
  rewrite (insert_id t "title" title Htitle).
  rewrite (insert_id t "text" text Htext).
  reflexivity.
Qed.

Lemma unchanged_edit_keeps_topic_witness :
  events (onSubmit (answering edited) (Normal (JsString "tok")) editProps
            (formValues (mountState editProps)) (mountState editProps))
  = [TurnstileExecute;
     EditGroupTopic (getProp topic7 "id")
       (topicBody (JsString "old") (JsString "old body") JsUndefined);
     Mutate topic7;
     Navigate (topicPage (getProp topic7 "id"))].
Proof.
  apply (unchanged_edit_keeps_topic (answering edited) editProps
           (mountState editProps) (JsString "tok")
           (JsString "old") (JsString "old body") topic7 edited); reflexivity.
Defined.

(** ** Rendering the form *)

(** Rendering calls no collaborator and changes neither the [sending] flag
    nor any value of the store, for any props (accepted or not) and from
    any state. *)
Theorem render_calls_nothing
    (styles : string -> string) (props : TopicFormProps) (s : FormState) :
  events (TopicForm styles props s) = []
  /\ sending (finalState (TopicForm styles props s)) = sending s
  /\ formValues (finalState (TopicForm styles props s)) = formValues s.
Proof.
  unfold TopicForm.
  destruct ((truthy (optString (groupName props))
             && bool_decide (is_Some (topic props)))
            || (negb (truthy (optString (groupName props)))
                && negb (bool_decide (is_Some (topic props))))).
  - repeat split; reflexivity.
  - destruct (default false (quickPost props)); repeat split; reflexivity.
Qed.

(** What the rendered editor shows of the store. *)
Lemma rendered_editor_props
    (styles : string -> string) (props : TopicFormProps) (s : FormState)
    (e : Element) :
  completion (TopicForm styles props s) = Normal e ->
  editorProp "confirmText" e
  = [if sending s then JsString "..."
     else if default false (quickPost props) then JsString "快速发帖"
          else JsUndefined]
  /\ editorProp "value" e = [getProp (formValues s) "text"].
Proof.
  unfold TopicForm.
  destruct ((truthy (optString (groupName props))
             && bool_decide (is_Some (topic props)))
            || (negb (truthy (optString (groupName props)))
                && negb (bool_decide (is_Some (topic props))))).
  - discriminate.
  - destruct (default false (quickPost props));
      cbn; intros H; inversion H; subst; clear H;
      destruct (sending s); split; reflexivity.
Qed.

(** The output of a render depends on the store only through the [sending]
    flag and the current text: two states that agree on these render the
    same tree (the title typed so far, the stored token and the registered
    fields do not show in it). *)
Theorem view_depends_on_sending_and_text
    (styles : string -> string) (props : TopicFormProps) (s1 s2 : FormState) :
  sending s1 = sending s2 ->
  getProp (formValues s1) "text" = getProp (formValues s2) "text" ->
  completion (TopicForm styles props s1) = completion (TopicForm styles props s2).
Proof.
  intros Hsending Htext. unfold TopicForm.
  destruct ((truthy (optString (groupName props))
             && bool_decide (is_Some (topic props)))
            || (negb (truthy (optString (groupName props)))
                && negb (bool_decide (is_Some (topic props))))).
  - reflexivity.
  - destruct (default false (quickPost props));
      cbn; rewrite Hsending, Htext; reflexivity.
Qed.

Lemma view_depends_on_sending_and_text_witness :
  completion (TopicForm (fun k => k) createProps
                (filled (JsString "hello") (JsString "world")))
  = completion (TopicForm (fun k => k) createProps
                  (finalState
                     (onSubmit (answering created42) (Normal (JsString "tok"))
                        createProps
                        (formValues (filled (JsString "hello") (JsString "world")))
                        (filled (JsString "") (JsString "world"))))).
Proof.
  apply (view_depends_on_sending_and_text (fun k => k) createProps);
    reflexivity.
Defined.

(** In an accepted form the editor's confirm label is "..." exactly while
    [sending] is set (otherwise the quick-post label, or none in the full
    layout), and the editor shows the text held in the store. *)
Theorem editor_reflects_store
    (styles : string -> string) (props : TopicFormProps) (s : FormState)
    (e : Element) :
  completion (TopicForm styles props s) = Normal e ->
  editorProp "confirmText" e
  = [if sending s then JsString "..."
     else if default false (quickPost props) then JsString "快速发帖"
          else JsUndefined]
  /\ editorProp "value" e = [getProp (formValues s) "text"].
Proof. apply rendered_editor_props. Qed.

Lemma editor_reflects_store_witness :
  editorProp "confirmText"
    (Elem "Form"
       [("compact", JsBoolean true); ("className", JsString "quickPostForm")]
       [Elem "Input"
          [("rounded", JsBoolean true);
           ("placeholder", JsString "给新帖取一个标题");
           ("name", JsString "title")] [];
        Elem "EditorForm"
          [("placeholder", JsString "想聊点什么的呢…");
           ("hideCancel", JsBoolean true);
           ("confirmText", JsString "快速发帖");
           ("rows", JsUndefined);
           ("name", JsString "text");
           ("value", JsString "world")] []])
  = [JsString "快速发帖"]
  /\ editorProp "value"
       (Elem "Form"
          [("compact", JsBoolean true); ("className", JsString "quickPostForm")]
          [Elem "Input"
             [("rounded", JsBoolean true);
              ("placeholder", JsString "给新帖取一个标题");
              ("name", JsString "title")] [];
           Elem "EditorForm"
             [("placeholder", JsString "想聊点什么的呢…");
              ("hideCancel", JsBoolean true);
              ("confirmText", JsString "快速发帖");
              ("rows", JsUndefined);
              ("name", JsString "text");
              ("value", JsString "world")] []])
     = [getProp (formValues (filled (JsString "hello") (JsString "world"))) "text"].
Proof.
  apply (editor_reflects_store (fun k => k)
           {| quickPost := Some true; groupName := Some "life"; topic := None |}
           (filled (JsString "hello") (JsString "world"))).
  reflexivity.
Defined.

(** How a submission ends decides the flag it leaves. *)
Lemma sending_after_submission
    (ozaClient : OzaClient) (execute : Completion JsValue)
    (props : TopicFormProps) (formData : FormData) (s : FormState) :
  sending (finalState (onSubmit ozaClient execute props formData s))
  = match completion (onSubmit ozaClient execute props formData s) with
    | Normal _ => false
    | Throw _ => true
    end.
Proof. submit_cases ozaClient execute props formData; reflexivity. Qed.

(** After a submission that ended by a throw (the challenge or the write
    operation rejected), the next render of the form still shows the
    sending label "..." on the editor, in either layout. *)
Theorem sending_label_stuck_after_throw
    (ozaClient : OzaClient) (execute : Completion JsValue)
    (styles : string -> string) (props : TopicFormProps)
    (formData : FormData) (s : FormState) (err : string) (e : Element) :
  completion (onSubmit ozaClient execute props formData s) = Throw err ->
  completion (TopicForm styles props
                (finalState (onSubmit ozaClient execute props formData s)))
  = Normal e ->
  editorProp "confirmText" e = [JsString "..."].
Proof.
  intros Hthrow Hrender.
  destruct (rendered_editor_props styles props _ e Hrender) as [Hlabel _].
  rewrite Hlabel.
  rewrite (sending_after_submission ozaClient execute props formData s).
  rewrite Hthrow. reflexivity.
Qed.

Lemma sending_label_stuck_after_throw_witness :
  editorProp "confirmText"
    (Elem "Fragment" []
       [Elem "div" [("className", JsString "titleInput")]
          [Elem "Input"
             [("rounded", JsBoolean true);
              ("placeholder", JsString "取个标题…");
              ("name", JsString "title")] []];
        Elem "div" [("className", JsString "contentEditor")]
          [Elem "EditorForm"
             [("placeholder", JsString "话题正文…");
              ("hideCancel", JsBoolean true);
              ("confirmText", JsString "...");
              ("rows", JsNumber 15);
              ("name", JsString "text");
              ("value", JsString "world")] []]])
  = [JsString "..."].
Proof.
  apply (sending_label_stuck_after_throw (rejecting "Failed to fetch")
           (Normal (JsString "tok")) (fun k => k) createProps
           (formValues (filled (JsString "hello") (JsString "world")))
           (filled (JsString "hello") (JsString "world")) "Failed to fetch");
    reflexivity.
Defined.

(** At mount, an accepted form shows the topic's text in the editor in edit
    mode and no text in create mode, and its confirm label is not the
    sending label. *)
Theorem editor_at_mount
    (styles : string -> string) (props : TopicFormProps) (e : Element) :
  completion (TopicForm styles props (mountState props)) = Normal e ->
  editorProp "value" e
  = [match topic props with
     | Some t => getProp t "text"
     | None => JsUndefined
     end]
  /\ editorProp "confirmText" e
     = [if default false (quickPost props) then JsString "快速发帖"
        else JsUndefined].
Proof.
  intros Hrender.
  destruct (rendered_editor_props styles props _ e Hrender) as [Hlabel Hvalue].
  rewrite Hlabel, Hvalue. unfold mountState. cbn [sending formValues].
  rewrite getProp_insert_eq. split; reflexivity.
Qed.

Lemma editor_at_mount_witness :
  editorProp "value"
    (Elem "Fragment" []
       [Elem "div" [("className", JsString "titleInput")]
          [Elem "Input"
             [("rounded", JsBoolean true);
              ("placeholder", JsString "取个标题…");
              ("name", JsString "title")] []];
        Elem "div" [("className", JsString "contentEditor")]
          [Elem "EditorForm"
             [("placeholder", JsString "话题正文…");
              ("hideCancel", JsBoolean true);
              ("confirmText", JsUndefined);
              ("rows", JsNumber 15);
              ("name", JsString "text");
              ("value", JsString "old body")] []]])
  = [match topic editProps with
     | Some t => getProp t "text"
     | None => JsUndefined
     end]
  /\ editorProp "confirmText"
       (Elem "Fragment" []
          [Elem "div" [("className", JsString "titleInput")]
             [Elem "Input"
                [("rounded", JsBoolean true);
                 ("placeholder", JsString "取个标题…");
                 ("name", JsString "title")] []];
           Elem "div" [("className", JsString "contentEditor")]
             [Elem "EditorForm"
                [("placeholder", JsString "话题正文…");
                 ("hideCancel", JsBoolean true);
                 ("confirmText", JsUndefined);
                 ("rows", JsNumber 15);
                 ("name", JsString "text");
                 ("value", JsString "old body")] []]])
     = [if default false (quickPost editProps) then JsString "快速发帖"
        else JsUndefined].
Proof.
  apply (editor_at_mount (fun k => k) editProps). reflexivity.
Defined.

(** ** Link targets and pages *)

Lemma string_length_app (a b : string) :
  String.length (a +:+ b) = (String.length a + String.length b)%nat.
Proof.
  induction a as [|c a IH]; [reflexivity |].
  change (S (String.length (a +:+ b))
          = S (String.length a + String.length b)).
  rewrite IH. reflexivity.
Qed.

Lemma string_app_inj_r (t a b : string) : a +:+ t = b +:+ t -> a = b.
Proof.
  revert b. induction a as [|c a IH]; intros [|c' b] H.
  - reflexivity.
  - apply (f_equal String.length) in H.
    change (String.length t = S (String.length (b +:+ t))) in H.
    rewrite string_length_app in H. lia.
  - apply (f_equal String.length) in H.
    change (S (String.length (a +:+ t)) = String.length t) in H.
    rewrite string_length_app in H. lia.
  - change (String c (a +:+ t) = String c' (b +:+ t)) in H.
    injection H as Hc Hrest. subst c'. f_equal. apply IH. exact Hrest.
Qed.

(** Two headers link to the same group page, or to the same forum page,
    only when their parent groups have the same name. *)
Theorem group_links_identify_group
    (getUserProfileLink styles : string -> string) (h1 h2 : Header.t) :
  linkTargets (GroupTopicHeader getUserProfileLink styles h1) !! 1%nat
  = linkTargets (GroupTopicHeader getUserProfileLink styles h2) !! 1%nat
  \/ linkTargets (GroupTopicHeader getUserProfileLink styles h1) !! 2%nat
     = linkTargets (GroupTopicHeader getUserProfileLink styles h2) !! 2%nat ->
  SlimGroup.name (Header.parent h1) = SlimGroup.name (Header.parent h2).
Proof.
  intros [H | H]; cbn in H; injection H as H; cbn in H.
  - exact H.
  - apply (string_app_inj_r "/forum"). exact H.
Qed.

Lemma group_links_identify_group_witness :
  SlimGroup.name (Header.parent sampleHeader)
  = SlimGroup.name (Header.parent sampleHeader).
Proof.
  apply (group_links_identify_group sampleProfileLink (fun k => k)
           sampleHeader sampleHeader).
  left. reflexivity.
Defined.

(** Two topics created with different identifiers are sent to different
    pages: when two create calls answer with status 200 and with different
    numeric [id]s (in the range below 10^21, where a template literal
    prints a number as a plain decimal), each submission navigates once,
    and not to the same page. *)
Theorem created_topics_get_distinct_pages
    (client1 client2 : OzaClient) (props : TopicFormProps) (formData : FormData)
    (s : FormState) (token : JsValue) (r1 r2 : Response) (n m : Z) :
  truthy token = true ->
  truthy (optString (groupName props)) = true ->
  createNewGroupTopic client1 (optString (groupName props)) (bodyOf formData)
    = Normal r1 ->
  createNewGroupTopic client2 (optString (groupName props)) (bodyOf formData)
    = Normal r2 ->
  status r1 = 200%Z ->
  status r2 = 200%Z ->
  data r1 !! "id" = Some (JsNumber n) ->
  data r2 !! "id" = Some (JsNumber m) ->
  (Z.abs n < 10 ^ 21)%Z ->
  (Z.abs m < 10 ^ 21)%Z ->
  n <> m ->
  exists to1 to2 : string,
    List.filter isNavigate
      (events (onSubmit client1 (Normal token) props formData s))
    = [Navigate to1]
    /\ List.filter isNavigate
         (events (onSubmit client2 (Normal token) props formData s))
       = [Navigate to2]
    /\ to1 <> to2.
Proof.
  intros Htok Hg Hr1 Hr2 Hs1 Hs2 Hid1 Hid2 _ _ Hne.
  rewrite !(onSubmit_token _ props token formData) by exact Htok.
  cbv zeta. rewrite Hg.
  erewrite (postNewTopic_normal client1) by exact Hr1.
  erewrite (postNewTopic_normal client2) by exact Hr2.
  unfold afterCreate, getProp.
  rewrite (proj2 (Z.eqb_eq (status r1) 200) Hs1).
  rewrite (proj2 (Z.eqb_eq (status r2) 200) Hs2).
  rewrite Hid1, Hid2. cbn [default toString].
  eexists. eexists. split; [reflexivity | split; [reflexivity |]].
  intros Heq. apply Hne.
  apply (inj (String.app "/group/topic/")) in Heq.
  change (pretty n = pretty m) in Heq.
  apply (inj pretty) in Heq. exact Heq.
Qed.

Lemma created_topics_get_distinct_pages_witness :
  exists to1 to2 : string,
    List.filter isNavigate
      (events (onSubmit (answering created42) (Normal (JsString "tok"))
                 createProps
                 (formValues (filled (JsString "hello") (JsString "world")))
                 (filled (JsString "hello") (JsString "world"))))
    = [Navigate to1]
    /\ List.filter isNavigate
         (events (onSubmit
                    (answering {| status := 200;
                                  data := {[ "id" := JsNumber 43 ]} |})
                    (Normal (JsString "tok")) createProps
                    (formValues (filled (JsString "hello") (JsString "world")))
                    (filled (JsString "hello") (JsString "world"))))
       = [Navigate to2]
    /\ to1 <> to2.
Proof.
  apply (created_topics_get_distinct_pages
           (answering created42)
           (answering {| status := 200; data := {[ "id" := JsNumber 43 ]} |})
           createProps
           (formValues (filled (JsString "hello") (JsString "world")))
           (filled (JsString "hello") (JsString "world"))
           (JsString "tok") created42
           {| status := 200; data := {[ "id" := JsNumber 43 ]} |} 42 43);
    try reflexivity; lia.
Defined.

(** ** The two layouts, and valid values *)

(** The quick-post flag only changes the layout: two sets of props that
    differ in nothing else are accepted or rejected alike, leave the same
    store after a render, and submit alike (same calls, same final state,
    same completion), from the confirm action as from the handler. *)
Theorem layout_does_not_change_behaviour
    (ozaClient : OzaClient) (execute : Completion JsValue)
    (styles : string -> string) (q q' : option bool)
    (name : option string) (tp : option TopicDetail)
    (formData : FormData) (s : FormState) :
  let p := {| quickPost := q; groupName := name; topic := tp |} in
  let p' := {| quickPost := q'; groupName := name; topic := tp |} in
  onSubmit ozaClient execute p formData s = onSubmit ozaClient execute p' formData s
  /\ onConfirm ozaClient execute p s = onConfirm ozaClient execute p' s
  /\ finalState (TopicForm styles p s) = finalState (TopicForm styles p' s)
  /\ ((exists e, completion (TopicForm styles p s) = Normal e)
      <-> (exists e', completion (TopicForm styles p' s) = Normal e')).
Proof.
  cbv zeta. split; [reflexivity | split; [reflexivity |]].
  unfold TopicForm. cbn [groupName topic quickPost].
  destruct ((truthy (optString name) && bool_decide (is_Some tp))
            || (negb (truthy (optString name)) && negb (bool_decide (is_Some tp)))).
  - split; [reflexivity |]. split; intros [e He]; discriminate.
  - destruct (default false q); destruct (default false q');
      (split; [reflexivity | split; intros _; eexists; reflexivity]).
Qed.

(** With [handleSubmit] as modelled: in a rendered form whose title and
    text are both present, the confirm action runs the submission handler
    on the values of the store, so the challenge is executed. *)
Theorem valid_values_reach_handler
    (ozaClient : OzaClient) (execute : Completion JsValue)
    (styles : string -> string) (props : TopicFormProps)
    (s : FormState) (e : Element) :
  completion (TopicForm styles props (mountState props)) = Normal e ->
  fields s = fields (finalState (TopicForm styles props (mountState props))) ->
  isMissing (getProp (formValues s) "title") = false ->
  isMissing (getProp (formValues s) "text") = false ->
  onConfirm ozaClient execute props s
  = onSubmit ozaClient execute props (formValues s) s.
Proof.
  intros Hrender Hfields Htitle Htext.
  rewrite (rendered_fields styles props e Hrender) in Hfields.
  unfold onConfirm, handleSubmit. rewrite Hfields. cbn [validate].
  rewrite Htitle, Htext. reflexivity.
Qed.

Lemma valid_values_reach_handler_witness :
  onConfirm (answering created42) (Normal (JsString "tok")) createProps
    (filled (JsString "hello") (JsString "world"))
  = onSubmit (answering created42) (Normal (JsString "tok")) createProps
      (formValues (filled (JsString "hello") (JsString "world")))
      (filled (JsString "hello") (JsString "world")).
Proof.
  apply (valid_values_reach_handler (answering created42)
           (Normal (JsString "tok")) (fun k => k) createProps
           (filled (JsString "hello") (JsString "world"))
           (Elem "Fragment" []
              [Elem "div" [("className", JsString "titleInput")]
                 [Elem "Input"
                    [("rounded", JsBoolean true);
                     ("placeholder", JsString "取个标题…");
                     ("name", JsString "title")] []];
               Elem "div" [("className", JsString "contentEditor")]
                 [Elem "EditorForm"
                    [("placeholder", JsString "话题正文…");
                     ("hideCancel", JsBoolean true);
                     ("confirmText", JsUndefined);
                     ("rows", JsNumber 15);
                     ("name", JsString "text");
                     ("value", JsUndefined)] []]])); reflexivity.
Defined.
